(** * CalculatorEngine (calculator_1.py): a shallow embedding

    The development follows [CalculatorEngine] of [src/calculator_1.py]:

    - [PyStr]    the string primitives [evaluate] calls: [str.lower],
                 [str.replace] and [re.sub] with the pattern
                 [name\((.*?)\)];
    - [PyNum]    Python numbers ([int], [float] as IEEE-754 binary64), their
                 arithmetic and [str];
    - [PyExpr]   the arithmetic fragment of the expression language that the
                 builtin [eval] runs;
    - [CalculatorEngine]  the class itself: its three fields and its methods.

    The modules [PyStrFacts], [PyNumFacts], [PyExprFacts] and
    [CalculatorEngineFacts] hold the lemmas about them, [EngineSpec] the
    properties of the specification.

    The rest of the file is about the callers of the engine:

    - [PyText]   the builtins they call: [str.strip], [str.split] and
                 [float] on a text;
    - [EngineCalls]  sequences of calls of the methods of the engine;
    - [CommandLineCalculator]  the command line: its commands,
                 [process_input] and the loop of [run], over the lines
                 read and the lines written;
    - [CalculatorGUI]  the window: the display, the result label, the
                 history panel and the commands of the buttons;
    - [PasswordGenerator]  [generate_password].

    Their lemmas are in [EngineMore], [PyTextFacts], [CommandLineFacts]
    and [CalculatorGUIFacts], their properties in [EngineMore],
    [CommandLineSpec], [CalculatorGUISpec] and [PasswordGeneratorSpec].

    Strings are byte strings in UTF-8, so the glyph for pi is the two bytes
    207, 128. *)

From Stdlib Require Import ZArith List Bool Lia Ascii String.
From Stdlib Require Import Numbers.DecimalString Numbers.DecimalFacts.
From Stdlib Require Import Numbers.DecimalN Numbers.DecimalPos.
From Stdlib Require Import Floats.SpecFloat.
Import ListNotations.

Local Open Scope string_scope.

(* ================================================================== *)
(** ** String primitives *)

Module PyStr.

Definition is_upper (c : ascii) : bool :=
  let n := nat_of_ascii c in (65 <=? n)%nat && (n <=? 90)%nat.

Definition lower_char (c : ascii) : ascii :=
  if is_upper c then ascii_of_nat (nat_of_ascii c + 32) else c.

(** [str.lower] on ASCII text: the capitals [A]-[Z] are lowered.  The bytes
    of a code point outside ASCII are kept as they are (Python lowers
    capitals there too; no input below has one). *)
Fixpoint lower (s : string) : string :=
  match s with
  | EmptyString => EmptyString
  | String c s' => String (lower_char c) (lower s')
  end.

(** [s.replace(old, new)] for a non-empty [old] (every call in [evaluate]
    has one): occurrences are found from the left and do not overlap.
    [skip] counts the bytes of a matched occurrence still to be passed
    over. *)
Fixpoint replace_from (old new : string) (skip : nat) (s : string) : string :=
  match s with
  | EmptyString => EmptyString
  | String c s' =>
      match skip with
      | S k => replace_from old new k s'
      | O =>
          if prefix old s
          then new ++ replace_from old new (length old - 1) s'
          else String c (replace_from old new 0 s')
      end
  end.

Definition replace (old new s : string) : string := replace_from old new 0 s.

Definition newline : ascii := ascii_of_nat 10.

(** The lazy group [(.*?)] followed by [\)]: the number of characters up to
    the first closing parenthesis, provided no newline comes before it
    (the dot does not match a newline). *)
Fixpoint find_close (s : string) : option nat :=
  match s with
  | EmptyString => None
  | String c s' =>
      if Ascii.eqb c ")" then Some O
      else if Ascii.eqb c newline then None
      else option_map S (find_close s')
  end.

Fixpoint drop (n : nat) (s : string) : string :=
  match n, s with
  | S k, String _ s' => drop k s'
  | _, _ => s
  end.

(** A match of [name\((.*?)\)] at the head of [s]: the length of the
    group. *)
Definition match_call (name s : string) : option nat :=
  if prefix (name ++ "(") s then find_close (drop (length name + 1) s)
  else None.

(** [re.sub(name\((.*?)\), repl(\1), s)]: at a match the name is replaced
    by [repl] and the parenthesised group is copied; the search resumes
    after the closing parenthesis.  [skip] counts the bytes of the matched
    name still to be dropped, [copy] those of the group (with its
    parentheses) still to be copied. *)
Fixpoint re_sub_from (name repl : string) (skip copy : nat) (s : string)
  : string :=
  match s with
  | EmptyString => EmptyString
  | String c s' =>
      match skip with
      | S k => re_sub_from name repl k copy s'
      | O =>
          match copy with
          | S k => String c (re_sub_from name repl 0 k s')
          | O =>
              match match_call name s with
              | Some n =>
                  repl ++ re_sub_from name repl (length name - 1) (n + 2) s'
              | None => String c (re_sub_from name repl 0 0 s')
              end
          end
      end
  end.

Definition re_sub_call (name repl s : string) : string :=
  re_sub_from name repl 0 0 s.

(** Membership of a character. *)
Fixpoint mem (c : ascii) (s : string) : bool :=
  match s with
  | EmptyString => false
  | String d s' => Ascii.eqb c d || mem c s'
  end.

Fixpoint forallb (p : ascii -> bool) (s : string) : bool :=
  match s with
  | EmptyString => true
  | String c s' => p c && forallb p s'
  end.

End PyStr.

(* ================================================================== *)
(** ** Python numbers *)

Module PyNum.

(** [float] is IEEE-754 binary64: 53 bits of precision, infinities at
    exponent 1024. *)
Definition prec : Z := 53.
Definition emax : Z := 1024.

Inductive num : Type :=
| PyInt (z : Z)
| PyFloat (f : spec_float).

(** The exceptions met on the way, all of them subclasses of [Exception].
    [NameLookupError] is the failed lookup of a name that is in neither
    namespace handed to [eval]: the builtins being [None], CPython 3
    reports it as the [TypeError] of subscripting [None].
    [ValueError cause] is the exception [evaluate] raises, its message
    quoting the one of [cause]. *)
Inductive exn : Type :=
| SyntaxError
| NameLookupError
| ZeroDivisionError
| OverflowError
| ValueError (cause : exn).

Inductive outcome (A : Type) : Type :=
| Return (a : A)
| Raise (e : exn).
Arguments Return {A} a.
Arguments Raise {A} e.

Definition bind {A B} (m : outcome A) (k : A -> outcome B) : outcome B :=
  match m with
  | Return a => k a
  | Raise e => Raise e
  end.

(** *** Rounding to binary64 *)

(** The quotient [n / d] of two positive integers, rounded to nearest,
    ties to even. *)
Definition ratio_to_float (sign : bool) (n d : positive) : spec_float :=
  let '(q, e, l) := SFdiv_core_binary prec emax (Zpos n) 0 (Zpos d) 0 in
  binary_round_aux prec emax sign q e l.

Definition Z_to_float (z : Z) : spec_float :=
  binary_normalize prec emax z 0 false.

Definition is_infinite (f : spec_float) : bool :=
  match f with
  | S754_infinity _ => true
  | _ => false
  end.

(** [float(z)] for an [int]: fails when [z] is out of range. *)
Definition int_to_float (z : Z) : outcome spec_float :=
  let f := Z_to_float z in
  if is_infinite f then Raise OverflowError else Return f.

(** The value [d * 10^p] of a decimal literal with digits [d]. *)
Definition decimal_to_float (d : N) (p : Z) : spec_float :=
  match d with
  | N0 => S754_zero false
  | Npos m =>
      match p with
      | Zneg k => ratio_to_float false m (Pos.pow 10 k)
      | _ => Z_to_float (Zpos m * 10 ^ p)
      end
  end.

(** *** [str] *)

Definition str_int (z : Z) : string := NilZero.string_of_int (Z.to_int z).

Definition str_nat_digits (n : N) : string :=
  NilZero.string_of_uint (N.to_uint n).

(** [x = m * 2^e] as a fraction. *)
Definition frac_num (m : positive) (e : Z) : Z :=
  match e with
  | Zpos k => Zpos m * 2 ^ e
  | _ => Zpos m
  end.
Definition frac_den (e : Z) : Z :=
  match e with
  | Zneg k => 2 ^ (Zpos k)
  | _ => 1
  end.

(** [10^k <= num / den] *)
Definition pow10_le (k num den : Z) : bool :=
  match k with
  | Zneg j => (den <=? num * 10 ^ (Zpos j))%Z
  | _ => (10 ^ k * den <=? num)%Z
  end.

(** The decimal exponent [k] with [10^k <= x < 10^(k+1)], from the binary
    exponent. *)
Definition decimal_exponent (m : positive) (e : Z) : Z :=
  let num := frac_num m e in
  let den := frac_den e in
  let b := (Zpos (digits2_pos m) + e)%Z in
  let k0 := ((b - 1) * 30103 / 100000)%Z in
  if pow10_le (k0 + 1) num den then (k0 + 1)%Z
  else if pow10_le k0 num den then k0
  else (k0 - 1)%Z.

(** The two decimals with [n] significant digits around [m * 2^e], whose
    decimal exponent is [k]: the one below, the exponent of its last
    digit, and how the remainder compares with one half. *)
Definition decimals_around (m : positive) (e : Z) (k : Z) (n : nat)
  : N * Z * comparison :=
  let p := (k - (Z.of_nat n - 1))%Z in
  let num := (frac_num m e * 10 ^ (Z.max 0 (- p)))%Z in
  let den := (frac_den e * 10 ^ (Z.max 0 p))%Z in
  (Z.to_N (num / den), p, (2 * (num mod den) ?= den)%Z).

(** The nearer of the two, the even one in a tie. *)
Definition nearest_of (lo : N) (half : comparison) : N :=
  match half with
  | Lt => lo
  | Gt => N.succ lo
  | Eq => if N.even lo then lo else N.succ lo
  end.

(** The best decimal with [n] significant digits that reads back as
    [S754_finite false m e], when there is one. *)
Definition digits_at (m : positive) (e : Z) (k : Z) (n : nat)
  : option (N * Z) :=
  let '(lo, p, half) := decimals_around m e k n in
  let hi := N.succ lo in
  let ok c := SFeqb (decimal_to_float c p) (S754_finite false m e) in
  match ok lo, ok hi with
  | true, true => Some (nearest_of lo half, p)
  | true, false => Some (lo, p)
  | false, true => Some (hi, p)
  | false, false => None
  end.

(** The shortest such decimal: [n = 16 - fuel + 1, ..., 16] significant
    digits are tried, and 17 always do. *)
Fixpoint shortest_from (m : positive) (e : Z) (k : Z) (fuel : nat)
  : N * Z :=
  match fuel with
  | O => let '(lo, p, half) := decimals_around m e k 17 in
         (nearest_of lo half, p)
  | S fuel' =>
      match digits_at m e k (16 - fuel') with
      | Some r => r
      | None => shortest_from m e k fuel'
      end
  end.

Fixpoint strip_zeros (fuel : nat) (c : N) (p : Z) : N * Z :=
  match fuel with
  | O => (c, p)
  | S fuel' =>
      if (N.eqb (c mod 10) 0 && negb (N.eqb c 0))%bool
      then strip_zeros fuel' (c / 10)%N (p + 1)%Z
      else (c, p)
  end.

Fixpoint zeros (n : nat) : string :=
  match n with
  | O => ""
  | S k => String "0" (zeros k)
  end.

Fixpoint take (n : nat) (s : string) : string :=
  match n, s with
  | S k, String c s' => String c (take k s')
  | _, _ => ""
  end.

(** The exponent of the scientific notation: a sign and at least two
    digits. *)
Definition str_exponent (x : Z) : string :=
  let a := str_nat_digits (Z.to_N (Z.abs x)) in
  String "e" ((if (x <? 0)%Z then "-" else "+")
              ++ (if (Z.abs x <? 10)%Z then "0" else "") ++ a).

(** [repr] of a positive float from its shortest digits [ds] and the
    position [decpt] of the decimal point: scientific notation when
    [decpt <= -4] or [decpt > 16]. *)
Definition format_repr (ds : string) (decpt : Z) : string :=
  let n := Z.of_nat (length ds) in
  if ((decpt <=? -4) || (16 <? decpt))%Z%bool then
    match ds with
    | String d EmptyString => String d (str_exponent (decpt - 1))
    | String d rest => String d ("." ++ rest ++ str_exponent (decpt - 1))
    | EmptyString => ""
    end
  else if (decpt <=? 0)%Z then
    "0." ++ zeros (Z.to_nat (- decpt)) ++ ds
  else if (decpt <? n)%Z then
    take (Z.to_nat decpt) ds ++ "." ++ PyStr.drop (Z.to_nat decpt) ds
  else
    ds ++ zeros (Z.to_nat (decpt - n)) ++ ".0".

Definition str_finite (m : positive) (e : Z) : string :=
  let k := decimal_exponent m e in
  let '(c, p) := shortest_from m e k 16 in
  let '(c, p) := strip_zeros 17 c p in
  let ds := str_nat_digits c in
  format_repr ds (Z.of_nat (length ds) + p).

(** [str(f)] for a float: the shortest decimal that reads back as [f]. *)
Definition str_float (f : spec_float) : string :=
  match f with
  | S754_nan => "nan"
  | S754_infinity false => "inf"
  | S754_infinity true => "-inf"
  | S754_zero false => "0.0"
  | S754_zero true => "-0.0"
  | S754_finite false m e => str_finite m e
  | S754_finite true m e => String "-" (str_finite m e)
  end.

Definition str (v : num) : string :=
  match v with
  | PyInt z => str_int z
  | PyFloat f => str_float f
  end.

(** *** Arithmetic *)

Definition to_float (v : num) : outcome spec_float :=
  match v with
  | PyInt z => int_to_float z
  | PyFloat f => Return f
  end.

Definition is_zero (f : spec_float) : bool :=
  match f with
  | S754_zero _ => true
  | _ => false
  end.

(** A float operation on two numbers, either of which may be an [int]
    that is converted first. *)
Definition float_op (op : spec_float -> spec_float -> outcome spec_float)
           (a b : num) : outcome num :=
  bind (to_float a) (fun x =>
  bind (to_float b) (fun y =>
  bind (op x y) (fun r => Return (PyFloat r)))).

Definition add (a b : num) : outcome num :=
  match a, b with
  | PyInt x, PyInt y => Return (PyInt (x + y))
  | _, _ => float_op (fun x y => Return (SFadd prec emax x y)) a b
  end.

Definition sub (a b : num) : outcome num :=
  match a, b with
  | PyInt x, PyInt y => Return (PyInt (x - y))
  | _, _ => float_op (fun x y => Return (SFsub prec emax x y)) a b
  end.

Definition mul (a b : num) : outcome num :=
  match a, b with
  | PyInt x, PyInt y => Return (PyInt (x * y))
  | _, _ => float_op (fun x y => Return (SFmul prec emax x y)) a b
  end.

(** [x / y] for two [int]s: the quotient rounded once. *)
Definition int_truediv (x y : Z) : outcome num :=
  let sign := xorb (x <? 0)%Z (y <? 0)%Z in
  match Z.abs x, Z.abs y with
  | _, Z0 => Raise ZeroDivisionError
  | Zpos n, Zpos d =>
      let f := ratio_to_float sign n d in
      if is_infinite f then Raise OverflowError else Return (PyFloat f)
  | _, _ => Return (PyFloat (S754_zero sign))
  end.

Definition truediv (a b : num) : outcome num :=
  match a, b with
  | PyInt x, PyInt y => int_truediv x y
  | _, _ =>
      float_op (fun x y => if is_zero y then Raise ZeroDivisionError
                           else Return (SFdiv prec emax x y)) a b
  end.

(** [//], [%] and [**] are modelled on [int]s only ([**] with an exponent
    that is not negative); [None] stands for the other cases. *)
Definition floordiv (a b : num) : option (outcome num) :=
  match a, b with
  | PyInt x, PyInt y =>
      Some (if (y =? 0)%Z then Raise ZeroDivisionError
            else Return (PyInt (x / y)))
  | _, _ => None
  end.

Definition modulo (a b : num) : option (outcome num) :=
  match a, b with
  | PyInt x, PyInt y =>
      Some (if (y =? 0)%Z then Raise ZeroDivisionError
            else Return (PyInt (x mod y)))
  | _, _ => None
  end.

Definition pow (a b : num) : option (outcome num) :=
  match a, b with
  | PyInt x, PyInt y =>
      if (0 <=? y)%Z then Some (Return (PyInt (x ^ y))) else None
  | _, _ => None
  end.

Definition neg (a : num) : num :=
  match a with
  | PyInt x => PyInt (- x)
  | PyFloat f => PyFloat (SFopp f)
  end.

(** [a == b]: numbers are compared by value, an [int] and a [float]
    exactly. *)
Definition int_eq_float (z : Z) (f : spec_float) : bool :=
  match f with
  | S754_zero _ => (z =? 0)%Z
  | S754_finite s m e =>
      let v := if s then Zneg m else Zpos m in
      match e with
      | Zneg k => (z * 2 ^ (Zpos k) =? v)%Z
      | _ => (z =? v * 2 ^ e)%Z
      end
  | _ => false
  end.

Definition eqb (a b : num) : bool :=
  match a, b with
  | PyInt x, PyInt y => (x =? y)%Z
  | PyFloat f, PyFloat g => SFeqb f g
  | PyInt x, PyFloat g => int_eq_float x g
  | PyFloat f, PyInt y => int_eq_float y f
  end.

(** The characters [str] can produce: the digits, the sign, the point,
    the exponent mark and the letters of [inf] and [nan]. *)
Definition numeric_char (c : ascii) : bool :=
  PyStr.mem c "0123456789-+.einfa".

End PyNum.

(* ================================================================== *)
(** ** The expressions run by [eval]

    [eval(source, {"__builtins__": None}, {"math": math})] is modelled on
    the arithmetic fragment of the language: decimal literals, names, the
    operators [+ - * / // % **], parentheses, attribute references and
    calls.  Source text that leaves the fragment (another character, a
    keyword, a comma, a value that is not a number) is reported as
    [None]; its meaning is left to the caller of the model.  The resource
    limits of an interpreter (nesting depth, memory, the length of integer
    literals) are not modelled. *)

Module PyExpr.
Import PyNum.

Inductive token : Type :=
| TNum (v : num)
| TName (s : string)
| TPlus | TMinus | TStar | TSlash | TDoubleSlash | TPercent | TDoubleStar
| TLParen | TRParen | TDot.

(** *** Tokens *)

Definition is_digit (c : ascii) : bool :=
  let n := nat_of_ascii c in (48 <=? n)%nat && (n <=? 57)%nat.

Definition is_lower_letter (c : ascii) : bool :=
  let n := nat_of_ascii c in (97 <=? n)%nat && (n <=? 122)%nat.

Definition is_name_char (c : ascii) : bool :=
  is_lower_letter c || is_digit c || Ascii.eqb c "_".

Definition is_space (c : ascii) : bool :=
  Ascii.eqb c " " || Ascii.eqb c (ascii_of_nat 9).

(** The longest prefix whose characters satisfy [p], and the rest. *)
Fixpoint span (p : ascii -> bool) (s : string) : string * string :=
  match s with
  | EmptyString => (EmptyString, EmptyString)
  | String c s' =>
      if p c then let '(a, b) := span p s' in (String c a, b)
      else (EmptyString, s)
  end.

(** The number a string of decimal digits denotes (0 for the empty
    string). *)
Definition digits_value (s : string) : N :=
  match NilEmpty.uint_of_string s with
  | Some d => N.of_uint d
  | None => 0
  end.

Definition keywords : list string :=
  [ "and"; "as"; "assert"; "async"; "await"; "break"; "class"; "continue";
    "def"; "del"; "elif"; "else"; "except"; "finally"; "for"; "from";
    "global"; "if"; "import"; "in"; "is"; "lambda"; "nonlocal"; "not";
    "or"; "pass"; "raise"; "return"; "try"; "while"; "with"; "yield" ].

Definition is_keyword (w : string) : bool :=
  existsb (String.eqb w) keywords.

(** Letters right after a number that may continue it or follow it in
    some version of the language: a radix or imaginary suffix, an
    underscore, a keyword. *)
Definition may_follow_number (w : string) : bool :=
  existsb (fun k => prefix k w)
          [ "j"; "_"; "x"; "o"; "b"; "and"; "else"; "for"; "if"; "in";
            "is"; "not" ].

Inductive lexed (A : Type) : Type :=
| Lexed (a : A)
| LexError
| LexUnmodelled.
Arguments Lexed {A} a.
Arguments LexError {A}.
Arguments LexUnmodelled {A}.

(** The exponent part [e[+-]digits] at the head of [s], when there is
    one. *)
Definition lex_exponent (s : string) : option (Z * string) :=
  match s with
  | String "e" r =>
      let '(sign, r') :=
        match r with
        | String "+" x => (false, x)
        | String "-" x => (true, x)
        | _ => (false, r)
        end in
      let '(ds, rest) := span is_digit r' in
      match ds with
      | EmptyString => None
      | _ => let v := Z.of_N (digits_value ds) in
             Some (if sign then (- v)%Z else v, rest)
      end
  | _ => None
  end.

(** A number at the head of [s], which starts with a digit or with a dot
    and a digit. *)
Definition lex_number (s : string) : lexed (num * string) :=
  let '(ip, r1) := span is_digit s in
  let '(has_dot, fp, r2) :=
    match r1 with
    | String "." r => let '(fp, r2) := span is_digit r in (true, fp, r2)
    | _ => (false, EmptyString, r1)
    end in
  let '(ex, r3) :=
    match lex_exponent r2 with
    | Some (x, r) => (Some x, r)
    | None => (None, r2)
    end in
  let follow := fst (span is_name_char r3) in
  match follow with
  | String _ _ =>
      if may_follow_number follow then LexUnmodelled else LexError
  | EmptyString =>
      match has_dot, ex with
      | false, None =>
          let v := digits_value ip in
          match ip with
          | String "0" (String _ _) =>
              if N.eqb v 0 then Lexed (PyInt 0, r3) else LexError
          | _ => Lexed (PyInt (Z.of_N v), r3)
          end
      | _, _ =>
          let d := digits_value (ip ++ fp) in
          let p := (match ex with Some x => x | None => 0 end
                    - Z.of_nat (length fp))%Z in
          Lexed (PyFloat (decimal_to_float d p), r3)
      end
  end.

(** The tokens of [s].  Each step takes at least one character, so a
    fuel above the length of [s] is never used up. *)
Fixpoint lex (fuel : nat) (s : string) : lexed (list token) :=
  match fuel with
  | O => LexUnmodelled
  | S fuel' =>
      let continue t rest :=
        match lex fuel' rest with
        | Lexed ts => Lexed (t :: ts)
        | r => r
        end in
      match s with
      | EmptyString => Lexed []
      | String c s' =>
          if is_space c then lex fuel' s'
          else if is_digit c then
            match lex_number s with
            | Lexed (v, rest) => continue (TNum v) rest
            | LexError => LexError
            | LexUnmodelled => LexUnmodelled
            end
          else if Ascii.eqb c "." then
            match s' with
            | String d _ =>
                if is_digit d then
                  match lex_number s with
                  | Lexed (v, rest) => continue (TNum v) rest
                  | LexError => LexError
                  | LexUnmodelled => LexUnmodelled
                  end
                else if Ascii.eqb d "." then LexUnmodelled
                else continue TDot s'
            | EmptyString => continue TDot s'
            end
          else if is_name_char c then
            let '(w, rest) := span is_name_char s in
            if is_keyword w then LexUnmodelled else continue (TName w) rest
          else if Ascii.eqb c "+" then continue TPlus s'
          else if Ascii.eqb c "-" then continue TMinus s'
          else if Ascii.eqb c "%" then continue TPercent s'
          else if Ascii.eqb c "(" then continue TLParen s'
          else if Ascii.eqb c ")" then continue TRParen s'
          else if Ascii.eqb c "*" then
            match s' with
            | String "*" s'' => continue TDoubleStar s''
            | _ => continue TStar s'
            end
          else if Ascii.eqb c "/" then
            match s' with
            | String "/" s'' => continue TDoubleSlash s''
            | _ => continue TSlash s'
            end
          else LexUnmodelled
      end
  end.

Definition tokenize (s : string) : lexed (list token) :=
  lex (S (length s)) s.

(** *** Syntax trees *)

Inductive binop : Type := Add | Sub | Mul | Div | FloorDiv | Mod | Pow.

#[warnings="-register-all"]
Inductive expr : Type :=
| ENum (v : num)
| EName (s : string)
| ENeg (e : expr)
| EPos (e : expr)
| EBin (op : binop) (a b : expr)
| EAttr (e : expr) (name : string)
| ECall (f : expr) (arg : option expr).

Inductive parsed (A : Type) : Type :=
| Parsed (a : A) (rest : list token)
| ParseError
| ParseUnmodelled.
Arguments Parsed {A} a rest.
Arguments ParseError {A}.
Arguments ParseUnmodelled {A}.

Definition pbind {A B} (m : parsed A) (k : A -> list token -> parsed B)
  : parsed B :=
  match m with
  | Parsed a rest => k a rest
  | ParseError => ParseError
  | ParseUnmodelled => ParseUnmodelled
  end.

(** The grammar, from the loosest binding to the tightest:
<<
    sum     ::= term (('+' | '-') term)*
    term    ::= factor (('*' | '/' | '//' | '%') factor)*
    factor  ::= ('+' | '-') factor | power
    power   ::= primary ['**' factor]
    primary ::= atom ('.' NAME | '(' [sum] ')')*
    atom    ::= NUMBER | NAME | '(' sum ')'
>>
    An empty pair of parentheses in atom position and a star at the head
    of a parenthesis leave the fragment. *)
Fixpoint parse_sum (fuel : nat) (ts : list token) : parsed expr :=
  match fuel with
  | O => ParseUnmodelled
  | S fuel' =>
      pbind (parse_term fuel' ts) (fun a rest => parse_sum_tail fuel' a rest)
  end
with parse_sum_tail (fuel : nat) (a : expr) (ts : list token) : parsed expr :=
  match fuel with
  | O => ParseUnmodelled
  | S fuel' =>
      match ts with
      | TPlus :: r =>
          pbind (parse_term fuel' r)
                (fun b rest => parse_sum_tail fuel' (EBin Add a b) rest)
      | TMinus :: r =>
          pbind (parse_term fuel' r)
                (fun b rest => parse_sum_tail fuel' (EBin Sub a b) rest)
      | _ => Parsed a ts
      end
  end
with parse_term (fuel : nat) (ts : list token) : parsed expr :=
  match fuel with
  | O => ParseUnmodelled
  | S fuel' =>
      pbind (parse_factor fuel' ts)
            (fun a rest => parse_term_tail fuel' a rest)
  end
with parse_term_tail (fuel : nat) (a : expr) (ts : list token) : parsed expr :=
  match fuel with
  | O => ParseUnmodelled
  | S fuel' =>
      let next op r :=
        pbind (parse_factor fuel' r)
              (fun b rest => parse_term_tail fuel' (EBin op a b) rest) in
      match ts with
      | TStar :: r => next Mul r
      | TSlash :: r => next Div r
      | TDoubleSlash :: r => next FloorDiv r
      | TPercent :: r => next Mod r
      | _ => Parsed a ts
      end
  end
with parse_factor (fuel : nat) (ts : list token) : parsed expr :=
  match fuel with
  | O => ParseUnmodelled
  | S fuel' =>
      match ts with
      | TMinus :: r =>
          pbind (parse_factor fuel' r) (fun e rest => Parsed (ENeg e) rest)
      | TPlus :: r =>
          pbind (parse_factor fuel' r) (fun e rest => Parsed (EPos e) rest)
      | _ => parse_power fuel' ts
      end
  end
with parse_power (fuel : nat) (ts : list token) : parsed expr :=
  match fuel with
  | O => ParseUnmodelled
  | S fuel' =>
      pbind (parse_atom fuel' ts) (fun a rest =>
      pbind (parse_trailers fuel' a rest) (fun a rest =>
        match rest with
        | TDoubleStar :: r =>
            pbind (parse_factor fuel' r)
                  (fun b rest => Parsed (EBin Pow a b) rest)
        | _ => Parsed a rest
        end))
  end
with parse_trailers (fuel : nat) (a : expr) (ts : list token) : parsed expr :=
  match fuel with
  | O => ParseUnmodelled
  | S fuel' =>
      match ts with
      | TDot :: TName n :: r => parse_trailers fuel' (EAttr a n) r
      | TDot :: _ => ParseError
      | TLParen :: TRParen :: r => parse_trailers fuel' (ECall a None) r
      | TLParen :: TStar :: _ => ParseUnmodelled
      | TLParen :: TDoubleStar :: _ => ParseUnmodelled
      | TLParen :: r =>
          pbind (parse_sum fuel' r) (fun e rest =>
            match rest with
            | TRParen :: r' => parse_trailers fuel' (ECall a (Some e)) r'
            | _ => ParseError
            end)
      | _ => Parsed a ts
      end
  end
with parse_atom (fuel : nat) (ts : list token) : parsed expr :=
  match fuel with
  | O => ParseUnmodelled
  | S fuel' =>
      match ts with
      | TNum v :: r => Parsed (ENum v) r
      | TName n :: r => Parsed (EName n) r
      | TLParen :: TRParen :: _ => ParseUnmodelled
      | TLParen :: TStar :: _ => ParseUnmodelled
      | TLParen :: TDoubleStar :: _ => ParseUnmodelled
      | TLParen :: r =>
          pbind (parse_sum fuel' r) (fun e rest =>
            match rest with
            | TRParen :: r' => Parsed e r'
            | _ => ParseError
            end)
      | _ => ParseError
      end
  end.

(** The whole token list is one expression.  The fuel bounds the depth
    of the descent; a text that uses it up counts as outside the
    fragment. *)
Definition parse (ts : list token) : parsed expr :=
  pbind (parse_sum (8 * List.length ts + 8) ts) (fun e rest =>
    match rest with
    | [] => Parsed e []
    | _ => ParseError
    end).

(** *** Evaluation *)

Definition apply_binop (op : binop) (a b : num) : option (outcome num) :=
  match op with
  | Add => Some (add a b)
  | Sub => Some (sub a b)
  | Mul => Some (mul a b)
  | Div => Some (truediv a b)
  | FloorDiv => floordiv a b
  | Mod => modulo a b
  | Pow => pow a b
  end.

(** A name other than [math] and the underscore names ([__builtins__],
    [__debug__]) is bound nowhere. *)
Definition is_bound_name (n : string) : bool :=
  String.eqb n "math" || prefix "_" n.

(** Operands are evaluated from the left; the first exception ends the
    evaluation. *)
Fixpoint eval_expr (e : expr) : option (outcome num) :=
  match e with
  | ENum v => Some (Return v)
  | EName n => if is_bound_name n then None else Some (Raise NameLookupError)
  | ENeg a =>
      match eval_expr a with
      | Some (Return v) => Some (Return (neg v))
      | r => r
      end
  | EPos a => eval_expr a
  | EBin op a b =>
      match eval_expr a with
      | Some (Return x) =>
          match eval_expr b with
          | Some (Return y) => apply_binop op x y
          | r => r
          end
      | r => r
      end
  | EAttr a _ =>
      match eval_expr a with
      | Some (Raise x) => Some (Raise x)
      | _ => None
      end
  | ECall f _ =>
      match eval_expr f with
      | Some (Raise x) => Some (Raise x)
      | _ => None
      end
  end.

(** [eval] on the fragment. *)
Definition eval_arith (source : string) : option (outcome num) :=
  match tokenize source with
  | LexUnmodelled => None
  | LexError => Some (Raise SyntaxError)
  | Lexed ts =>
      match parse ts with
      | ParseUnmodelled => None
      | ParseError => Some (Raise SyntaxError)
      | Parsed e _ => eval_expr e
      end
  end.

(** [eval]: the fragment, and [other] for the rest of the language. *)
Definition eval (other : string -> outcome num) (source : string)
  : outcome num :=
  match eval_arith source with
  | Some r => r
  | None => other source
  end.

(** *** Numerals, for the facts below *)

(** The exponent part of a numeral: none, or [e], a sign and digits. *)
Inductive exponent_part : string -> Prop :=
| no_exponent : exponent_part EmptyString
| signed_exponent (sign : ascii) (ds : string) :
    sign = "+"%char \/ sign = "-"%char ->
    ds <> EmptyString -> PyStr.forallb is_digit ds = true ->
    exponent_part (String "e" (String sign ds)).

(** The fraction part: none, or a point and digits. *)
Inductive fraction_part : string -> Prop :=
| no_fraction : fraction_part EmptyString
| point_fraction (ds : string) :
    PyStr.forallb is_digit ds = true -> fraction_part (String "." ds).

(** A numeral: digits, then a fraction part, then an exponent part. *)
Definition numeral (s : string) : Prop :=
  exists a frac x,
    s = a ++ frac ++ x
    /\ a <> EmptyString /\ PyStr.forallb is_digit a = true
    /\ fraction_part frac /\ exponent_part x.

(** What is left of a call [math.f(...)] once the memory has taken the
    place of the [m]: the letters [ath], the point and the rest. *)
Definition broken (rest : string) : string := "ath." ++ rest.

(** A stand-in for the part of [eval] outside the arithmetic fragment,
    for the closed examples; no example below reaches it. *)
Definition unused_eval : string -> outcome num :=
  fun _ => Raise SyntaxError.

Definition eval_closed : string -> outcome num := eval unused_eval.

End PyExpr.

(* ================================================================== *)
(** ** The engine *)

Module CalculatorEngine.
Import PyStr PyNum.

(** The fields of an instance.  A history entry is the pair that
    [evaluate] appends. *)
Record t : Type := mk {
  history : list (string * num);
  memory : num;
  last_result : num
}.

(** [__init__] *)
Definition init : t :=
  {| history := []; memory := PyInt 0; last_result := PyInt 0 |}.

Definition set_memory (v : num) (self : t) : t :=
  {| history := history self; memory := v; last_result := last_result self |}.

(** [math.pi] and [math.e], the doubles nearest to the two constants. *)
Definition math_pi : spec_float := S754_finite false 7074237752028440 (-51).
Definition math_e : spec_float := S754_finite false 6121026514868073 (-51).

(** The glyph for pi, U+03C0, in UTF-8. *)
Definition pi_glyph : string :=
  String (ascii_of_nat 207) (String (ascii_of_nat 128) EmptyString).

(** The rewriting of the expression before the [try] block of
    [evaluate]. *)
Definition prepare (self : t) (expression : string) : string :=
  let expression := lower expression in
  let expression := replace pi_glyph (str (PyFloat math_pi)) expression in
  let expression := replace "pi" (str (PyFloat math_pi)) expression in
  let expression := replace "e" (str (PyFloat math_e)) expression in
  let expression := re_sub_call "sqrt" "math.sqrt" expression in
  let expression := re_sub_call "sin" "math.sin" expression in
  let expression := re_sub_call "cos" "math.cos" expression in
  let expression := re_sub_call "tan" "math.tan" expression in
  let expression := re_sub_call "log" "math.log10" expression in
  let expression := re_sub_call "ln" "math.log" expression in
  let expression := replace "^" "**" expression in
  let expression := replace "ans" (str (last_result self)) expression in
  let expression := replace "m" (str (memory self)) expression in
  expression.

Section Evaluate.

(** The builtin [eval] with the two namespaces of the call:
    [eval(_, {"__builtins__": None}, {"math": math})].  It sees nothing
    of the engine. *)
Variable py_eval : string -> outcome num.

(** [evaluate]: the result or the exception raised, and the instance
    afterwards. *)
Definition evaluate (expression : string) (self : t) : outcome num * t :=
  let expression := prepare self expression in
  match py_eval expression with
  | Return result =>
      (Return result,
       {| history := history self ++ [(expression, result)];
          memory := memory self;
          last_result := result |})
  | Raise e => (Raise (ValueError e), self)
  end.

End Evaluate.

Definition store_in_memory (value : num) (self : t) : outcome unit * t :=
  (Return tt, set_memory value self).

Definition add_to_memory (value : num) (self : t) : outcome unit * t :=
  match add (memory self) value with
  | Return v => (Return tt, set_memory v self)
  | Raise e => (Raise e, self)
  end.

Definition subtract_from_memory (value : num) (self : t) : outcome unit * t :=
  match sub (memory self) value with
  | Return v => (Return tt, set_memory v self)
  | Raise e => (Raise e, self)
  end.

Definition clear_memory (self : t) : outcome unit * t :=
  (Return tt, set_memory (PyInt 0) self).

Definition get_memory (self : t) : outcome num * t :=
  (Return (memory self), self).

Definition get_history (self : t) : outcome (list (string * num)) * t :=
  (Return (history self), self).

Definition clear_history (self : t) : outcome unit * t :=
  (Return tt,
   {| history := []; memory := memory self; last_result := last_result self |}).

(** *** Predicates for the facts below *)

(** The first characters of the texts that [prepare] looks for: [pi], [e],
    [sqrt]/[sin], [cos], [tan], [log]/[ln], the caret, [ans] and [m]; the
    glyph is not ASCII. *)
Definition rewritten_heads : string := "pesctl^am".

Definition is_ascii (c : ascii) : bool := (nat_of_ascii c <? 128)%nat.

Definition plain_char (c : ascii) : bool :=
  is_ascii c && negb (is_upper c) && negb (mem c rewritten_heads).

(** An ASCII text that [prepare] has nothing to do with. *)
Definition plain (s : string) : bool := forallb plain_char s.


End CalculatorEngine.

(* ================================================================== *)
(** ** More builtins: [str.strip], [str.split], [float]

    As before the text is ASCII; the whitespace of [str] is then the
    characters 9 to 13 and 28 to 32. *)

Module PyText.
Import PyNum.

Definition is_whitespace (c : ascii) : bool :=
  let n := nat_of_ascii c in
  ((9 <=? n)%nat && (n <=? 13)%nat) || ((28 <=? n)%nat && (n <=? 32)%nat).

Fixpoint lstrip (s : string) : string :=
  match s with
  | EmptyString => EmptyString
  | String c s' => if is_whitespace c then lstrip s' else s
  end.

Fixpoint rstrip (s : string) : string :=
  match s with
  | EmptyString => EmptyString
  | String c s' =>
      match rstrip s' with
      | EmptyString => if is_whitespace c then EmptyString
                       else String c EmptyString
      | r => String c r
      end
  end.

(** [s.strip()] *)
Definition strip (s : string) : string := rstrip (lstrip s).

(** [s.split(maxsplit=1)]: the first word and, when something other than
    whitespace follows it, the rest of the text from there on. *)
Definition split_once (s : string) : list string :=
  match lstrip s with
  | EmptyString => []
  | t =>
      let '(word, after) := PyExpr.span (fun c => negb (is_whitespace c)) t in
      match lstrip after with
      | EmptyString => [word]
      | rest => [word; rest]
      end
  end.


(** ASCII text, text of whitespace only, and a word of ASCII text: not
    empty and without whitespace. *)
Definition ascii_text (s : string) : bool :=
  PyStr.forallb CalculatorEngine.is_ascii s.

Definition blank (s : string) : bool := PyStr.forallb is_whitespace s.

Definition word_char (c : ascii) : bool :=
  CalculatorEngine.is_ascii c && negb (is_whitespace c).

Definition word (s : string) : bool :=
  negb (String.eqb s EmptyString) && PyStr.forallb word_char s.

(** The whitespace [float] strips: the characters 9 to 13 and the space. *)
Definition is_float_space (c : ascii) : bool :=
  let n := nat_of_ascii c in
  ((9 <=? n)%nat && (n <=? 13)%nat) || (n =? 32)%nat.

Fixpoint lstrip_by (p : ascii -> bool) (s : string) : string :=
  match s with
  | EmptyString => EmptyString
  | String c s' => if p c then lstrip_by p s' else s
  end.

Fixpoint rstrip_by (p : ascii -> bool) (s : string) : string :=
  match s with
  | EmptyString => EmptyString
  | String c s' =>
      match rstrip_by p s' with
      | EmptyString => if p c then EmptyString else String c EmptyString
      | r => String c r
      end
  end.

Definition is_letter (c : ascii) : bool :=
  PyStr.is_upper c || PyExpr.is_lower_letter c.

(** The characters of a decimal numeral. *)
Definition is_decimal_char (c : ascii) : bool :=
  PyExpr.is_digit c || PyStr.mem c ".e+-".

(** A text that starts as a numeral does: with a digit, or with a point
    and a digit. *)
Definition starts_number (s : string) : bool :=
  match s with
  | String c r =>
      PyExpr.is_digit c
      || (Ascii.eqb c "."
          && match r with
             | String d _ => PyExpr.is_digit d
             | EmptyString => false
             end)
  | EmptyString => false
  end.

Definition as_float (v : num) : spec_float :=
  match v with
  | PyInt z => Z_to_float z
  | PyFloat f => f
  end.

(** An unsigned numeral: [Some (Some f)] is its value, [Some None] the
    [ValueError] of a text that is no number, [None] a text outside the
    fragment (a capital [E], an underscore, [inf], [nan], other digits,
    an integer with leading zeros, ...). *)
Definition float_unsigned (body : string) : option (option spec_float) :=
  match body with
  | EmptyString => Some None
  | String c _ =>
      if is_letter c then
        if PyStr.mem (PyStr.lower_char c) "in" then None else Some None
      else if negb (PyStr.forallb is_decimal_char body) then None
      else if negb (starts_number body) then Some None
      else
        match PyExpr.lex_number body with
        | PyExpr.Lexed (v, EmptyString) => Some (Some (as_float v))
        | PyExpr.Lexed (_, String _ _) => Some None
        | _ => None
        end
  end.

(** [float(s)] on the fragment: whitespace around, one sign, a decimal
    numeral. *)
Definition float_decimal (s : string) : option (option spec_float) :=
  let t := rstrip_by is_float_space (lstrip_by is_float_space s) in
  match t with
  | String "-" body =>
      option_map (option_map SFopp) (float_unsigned body)
  | String "+" body => float_unsigned body
  | _ => float_unsigned t
  end.

(** [float]: the fragment, and [other] for the rest.  [None] is the
    [ValueError]. *)
Definition float (other : string -> option spec_float) (s : string)
  : option spec_float :=
  match float_decimal s with
  | Some r => r
  | None => other s
  end.

(** Stand-ins for the closed examples, which do not reach them. *)
Definition unused_float : string -> option spec_float := fun _ => None.
Definition float_closed : string -> option spec_float := float unused_float.

End PyText.

(* ================================================================== *)
(** ** Sequences of calls on the engine *)

Module EngineCalls.
Import PyNum CalculatorEngine.

(** A call of a method of the engine, with its arguments. *)
Inductive call : Type :=
| Evaluate (expression : string)
| StoreInMemory (value : num)
| AddToMemory (value : num)
| SubtractFromMemory (value : num)
| ClearMemory
| GetMemory
| GetHistory
| ClearHistory.



Section Calls.
Variable py_eval : string -> outcome num.

(** The instance after the call. *)
Definition after (c : call) (self : t) : t :=
  match c with
  | Evaluate expression => snd (evaluate py_eval expression self)
  | StoreInMemory value => snd (store_in_memory value self)
  | AddToMemory value => snd (add_to_memory value self)
  | SubtractFromMemory value => snd (subtract_from_memory value self)
  | ClearMemory => snd (clear_memory self)
  | GetMemory => snd (get_memory self)
  | GetHistory => snd (get_history self)
  | ClearHistory => snd (clear_history self)
  end.




End Calls.




End EngineCalls.

(* ================================================================== *)
(** ** The command line *)

Module CommandLineCalculator.
Import PyNum.

(** The exceptions of this layer: those of the list index, of a call with
    too many arguments, of [input] at the end of the input, of
    [sys.exit], and those coming out of the engine.  All but [SystemExit]
    are subclasses of [Exception]. *)
Inductive exn : Type :=
| IndexError
| TypeError
| EOFError
| SystemExit
| EngineError (e : PyNum.exn).

(** What is written to the terminal: the argument of a [print], the
    [print] of ["Error: "] and the message of an exception, the prompt of
    an [input]. *)
Inductive output : Type :=
| Print (s : string)
| PrintError (e : exn)
| Prompt (s : string).

(** The engine of the instance, the lines still to be read by [input] and
    what has been written so far. *)
Record t : Type := mk {
  engine : CalculatorEngine.t;
  stdin : list string;
  stdout : list output
}.

Inductive result : Type :=
| Done
| Raised (e : exn).

Definition action : Type := t -> result * t.

(** [__init__], in front of the lines of input. *)
Definition init (lines : list string) : t :=
  {| engine := CalculatorEngine.init; stdin := lines; stdout := [] |}.

Definition set_engine (e : CalculatorEngine.t) (self : t) : t :=
  {| engine := e; stdin := stdin self; stdout := stdout self |}.

Definition write (o : output) : action :=
  fun self =>
    (Done,
     {| engine := engine self; stdin := stdin self;
        stdout := stdout self ++ [o] |}).

Definition print (s : string) : action := write (Print s).

Definition raise (e : exn) : action := fun self => (Raised e, self).

Definition seq (a b : action) : action :=
  fun self =>
    match a self with
    | (Done, self') => b self'
    | r => r
    end.

(** [input(prompt)]: the prompt is written, the next line read. *)
Definition input (prompt : string) (k : string -> action) : action :=
  seq (write (Prompt prompt))
      (fun self =>
         match stdin self with
         | [] => (Raised EOFError, self)
         | line :: rest =>
             k line {| engine := engine self; stdin := rest;
                       stdout := stdout self |}
         end).

Definition nl : string := String (ascii_of_nat 10) EmptyString.

Fixpoint print_all (lines : list string) : action :=
  match lines with
  | [] => fun self => (Done, self)
  | l :: ls => seq (print l) (print_all ls)
  end.

Definition show_help : action :=
  print_all
    [ nl ++ "===== Calculator Help =====";
      "Enter a mathematical expression to calculate, e.g., 2 + 2";
      "Special commands:";
      "  help - Show this help message";
      "  history - Show calculation history";
      "  clear - Clear calculation history";
      "  memory - Show memory value";
      "  m+ <value> - Add value to memory";
      "  m- <value> - Subtract value from memory";
      "  mc - Clear memory";
      "  ms <value> - Store value in memory";
      "  exit/quit - Exit the calculator";
      "Special values:";
      "  pi or " ++ CalculatorEngine.pi_glyph ++ " - The value of pi";
      "  e - The value of e";
      "  ans - The last calculated result";
      "  m - The current memory value";
      "Functions:";
      "  sqrt(x) - Square root of x";
      "  sin(x) - Sine of x (in radians)";
      "  cos(x) - Cosine of x (in radians)";
      "  tan(x) - Tangent of x (in radians)";
      "  log(x) - Base-10 logarithm of x";
      "  ln(x) - Natural logarithm of x";
      "==========================" ++ nl ].

(** The lines of [show_history] for the entries, numbered from [i]. *)
Fixpoint history_lines (i : nat) (entries : list (string * num))
  : list string :=
  match entries with
  | [] => []
  | (expression, result) :: rest =>
      (str_int (Z.of_nat i) ++ ". " ++ expression ++ " = " ++ str result)
        :: history_lines (S i) rest
  end.

Definition show_history : action :=
  fun self =>
    match CalculatorEngine.history (engine self) with
    | [] => print "No calculation history." self
    | history =>
        print_all
          ([ nl ++ "===== Calculation History =====" ]
             ++ history_lines 1 history
             ++ [ "==============================" ++ nl ])
          self
    end.

Definition clear_history : action :=
  fun self =>
    print "Calculation history cleared."
          (set_engine (snd (CalculatorEngine.clear_history (engine self)))
                      self).

Definition show_memory : action :=
  fun self =>
    print ("Memory: " ++ str (CalculatorEngine.memory (engine self))) self.

Definition memory_clear : action :=
  fun self =>
    print "Memory cleared."
          (set_engine (snd (CalculatorEngine.clear_memory (engine self)))
                      self).

Definition exit_app : action := seq (print "Goodbye!") (raise SystemExit).

Section Builtins.

(** The builtins [eval], with the namespaces of the engine, and [float]
    on a text, [None] being its [ValueError]. *)
Variable py_eval : string -> outcome num.
Variable py_float : string -> option spec_float.

(** The argument [value] of a memory command: the one given, or else a
    line asked for. *)
Definition with_value (value : option string) (prompt : string)
           (k : string -> action) : action :=
  match value with
  | Some v => k v
  | None => input prompt k
  end.

(** The body of the three memory commands behind [float(value)]: the
    method of the engine is called and [message] printed; a [ValueError]
    is answered by the other message, another exception goes on. *)
Definition memory_command
           (method : num -> CalculatorEngine.t
                     -> outcome unit * CalculatorEngine.t)
           (message : string -> CalculatorEngine.t -> string)
           (value : string) : action :=
  fun self =>
    let invalid := print "Invalid value. Please enter a number." in
    match py_float value with
    | None => invalid self
    | Some x =>
        match method (PyFloat x) (engine self) with
        | (Return _, e) => print (message value e) (set_engine e self)
        | (Raise (ValueError _), e) => invalid (set_engine e self)
        | (Raise x, e) => raise (EngineError x) (set_engine e self)
        end
    end.

Definition memory_add (value : option string) : action :=
  with_value value "Enter value to add to memory: "
    (memory_command CalculatorEngine.add_to_memory
       (fun value e =>
          "Added " ++ value ++ " to memory. New memory value: "
          ++ str (CalculatorEngine.memory e))).

Definition memory_subtract (value : option string) : action :=
  with_value value "Enter value to subtract from memory: "
    (memory_command CalculatorEngine.subtract_from_memory
       (fun value e =>
          "Subtracted " ++ value ++ " from memory. New memory value: "
          ++ str (CalculatorEngine.memory e))).

Definition memory_store (value : option string) : action :=
  with_value value "Enter value to store in memory: "
    (memory_command CalculatorEngine.store_in_memory
       (fun value e => "Stored " ++ value ++ " in memory.")).

(** A handler of the table: a method without an argument, or one with
    the optional [value]. *)
Inductive handler : Type :=
| NoArgument (a : action)
| OptionalValue (a : option string -> action).

(** [self.commands] *)
Definition commands : list (string * handler) :=
  [ ("help", NoArgument show_help);
    ("history", NoArgument show_history);
    ("clear", NoArgument clear_history);
    ("memory", NoArgument show_memory);
    ("m+", OptionalValue memory_add);
    ("m-", OptionalValue memory_subtract);
    ("mc", NoArgument memory_clear);
    ("ms", OptionalValue memory_store);
    ("exit", NoArgument exit_app);
    ("quit", NoArgument exit_app) ].

Fixpoint lookup (command : string) (table : list (string * handler))
  : option handler :=
  match table with
  | [] => None
  | (name, h) :: rest =>
      if String.eqb command name then Some h else lookup command rest
  end.

(** The call of a handler with the rest of the line, if there is one; a
    method without an argument cannot take it. *)
Definition call (h : handler) (argument : option string) : action :=
  match h, argument with
  | NoArgument a, None => a
  | NoArgument _, Some _ => raise TypeError
  | OptionalValue a, v => a v
  end.

Definition process_input (user_input : string) : action :=
  fun self =>
    match PyText.split_once (PyText.strip user_input) with
    | [] => raise IndexError self
    | word :: rest =>
        let command := PyStr.lower word in
        match lookup command commands with
        | Some h => call h (List.hd_error rest) self
        | None =>
            match CalculatorEngine.evaluate py_eval user_input
                                            (engine self) with
            | (Return result, e) =>
                print ("= " ++ str result) (set_engine e self)
            | (Raise x, e) =>
                write (PrintError (EngineError x)) (set_engine e self)
            end
        end
    end.

(** One turn of the loop of [run]: whether the loop goes on, or the
    exception that leaves it.  (An interrupt from the keyboard is not
    modelled.) *)
Definition run_turn (self : t) : option exn * t :=
  match input (nl ++ "> ")
              (fun user_input =>
                 if String.eqb user_input EmptyString
                 then fun self => (Done, self)
                 else process_input user_input)
              self with
  | (Done, self') => (None, self')
  | (Raised SystemExit, self') => (Some SystemExit, self')
  | (Raised e, self') => (None, snd (write (PrintError e) self'))
  end.


(** [n] turns of the loop, or fewer when an exception leaves it. *)
Fixpoint run_turns (n : nat) (self : t) : option exn * t :=
  match n with
  | O => (None, self)
  | S n' =>
      match run_turn self with
      | (None, self') => run_turns n' self'
      | r => r
      end
  end.


End Builtins.

End CommandLineCalculator.

(* ================================================================== *)
(** ** The window *)

Module CalculatorGUI.
Import PyNum.

(** The text of the result label: a text set as such, or ["Error: "]
    followed by the message of an exception. *)
Inductive label : Type :=
| Label (s : string)
| ErrorLabel (e : PyNum.exn).

(** The engine and the contents of the three widgets the methods read and
    write: the entry, the result label and the history panel, the latter
    by its lines. *)
Record t : Type := mk {
  engine : CalculatorEngine.t;
  display_var : string;
  result_var : label;
  history_text : list string
}.

(** [__init__], as far as those go. *)
Definition init : t :=
  {| engine := CalculatorEngine.init;
     display_var := EmptyString;
     result_var := Label "= 0";
     history_text := [] |}.

Definition set_engine (e : CalculatorEngine.t) (self : t) : t :=
  {| engine := e; display_var := display_var self;
     result_var := result_var self; history_text := history_text self |}.

Definition set_display (s : string) (self : t) : t :=
  {| engine := engine self; display_var := s;
     result_var := result_var self; history_text := history_text self |}.

Definition set_result (l : label) (self : t) : t :=
  {| engine := engine self; display_var := display_var self;
     result_var := l; history_text := history_text self |}.

Definition append_to_display (text : string) (self : t) : t :=
  set_display (display_var self ++ text) self.

Definition clear (self : t) : t :=
  set_result (Label "= 0") (set_display EmptyString self).

(** One line for the entry, at the end of the panel. *)
Definition update_history (expression : string) (result : num) (self : t)
  : t :=
  {| engine := engine self; display_var := display_var self;
     result_var := result_var self;
     history_text := history_text self
                     ++ [expression ++ " = " ++ str result] |}.

Definition clear_history (self : t) : t :=
  {| engine := snd (CalculatorEngine.clear_history (engine self));
     display_var := display_var self;
     result_var := result_var self;
     history_text := [] |}.

Section Builtins.
Variable py_eval : string -> outcome num.
Variable py_float : string -> option spec_float.

Definition calculate (self : t) : t :=
  let expression := display_var self in
  match expression with
  | EmptyString => self
  | _ =>
      match CalculatorEngine.evaluate py_eval expression (engine self) with
      | (Return result, e) =>
          update_history expression result
            (set_result (Label ("= " ++ str result)) (set_engine e self))
      | (Raise x, e) => set_result (ErrorLabel x) (set_engine e self)
      end
  end.

(** [float(self.result_var.get()[2:])]: the text of an error label goes
    on with [ror: ], which is no number. *)
Definition label_value (l : label) : option spec_float :=
  match l with
  | Label s => py_float (PyStr.drop 2 s)
  | ErrorLabel _ => None
  end.

(** The three memory operations that read the label: nothing happens on
    a [ValueError]; another exception goes on. *)
Definition memory_from_label
           (method : num -> CalculatorEngine.t
                     -> outcome unit * CalculatorEngine.t)
           (self : t) : outcome unit * t :=
  match label_value (result_var self) with
  | None => (Return tt, self)
  | Some value =>
      match method (PyFloat value) (engine self) with
      | (Return _, e) => (Return tt, set_engine e self)
      | (Raise (ValueError _), e) => (Return tt, set_engine e self)
      | (Raise x, e) => (Raise x, set_engine e self)
      end
  end.

Definition memory_operation (operation : string) (self : t)
  : outcome unit * t :=
  if String.eqb operation "mc" then
    (Return tt,
     set_engine (snd (CalculatorEngine.clear_memory (engine self))) self)
  else if String.eqb operation "mr" then
    (Return tt,
     set_display (str (CalculatorEngine.memory (engine self))) self)
  else if String.eqb operation "ms" then
    memory_from_label CalculatorEngine.store_in_memory self
  else if String.eqb operation "m+" then
    memory_from_label CalculatorEngine.add_to_memory self
  else if String.eqb operation "m-" then
    memory_from_label CalculatorEngine.subtract_from_memory self
  else (Return tt, self).

(** The buttons of [create_buttons] and of the history panel. *)
Inductive button : Type :=
| MC | MR | MS | MPlus | MMinus | C
| Key (text : string)
| Equals
| ClearHistoryButton.

(** The texts of the keys that append to the display. *)
Definition keys : list string :=
  [ "7"; "8"; "9"; "/"; "sqrt("; "(";
    "4"; "5"; "6"; "*"; "sin("; ")";
    "1"; "2"; "3"; "-"; "cos("; "^";
    "0"; "."; CalculatorEngine.pi_glyph; "+"; "tan(" ].

(** The command of a button. *)
Definition press (b : button) (self : t) : outcome unit * t :=
  match b with
  | MC => memory_operation "mc" self
  | MR => memory_operation "mr" self
  | MS => memory_operation "ms" self
  | MPlus => memory_operation "m+" self
  | MMinus => memory_operation "m-" self
  | C => (Return tt, clear self)
  | Key text => (Return tt, append_to_display text self)
  | Equals => (Return tt, calculate self)
  | ClearHistoryButton => (Return tt, clear_history self)
  end.

(** The window after the buttons pressed one after the other (an
    exception in a command is reported and the window goes on). *)
Definition press_all (bs : list button) (self : t) : t :=
  fold_left (fun s b => snd (press b s)) bs self.

End Builtins.


End CalculatorGUI.

(* ================================================================== *)
(** ** The password generator *)

Module PasswordGenerator.

Definition ascii_lowercase : string := "abcdefghijklmnopqrstuvwxyz".
Definition ascii_uppercase : string := "ABCDEFGHIJKLMNOPQRSTUVWXYZ".
Definition digits : string := "0123456789".

Definition quote : string := String (ascii_of_nat 34) EmptyString.

(** [string.punctuation] *)
Definition punctuation : string :=
  "!" ++ quote ++ "#$%&'()*+,-./:;<=>?@[\]^_`{|}~".

Definition all_characters : string :=
  ascii_lowercase ++ ascii_uppercase ++ digits ++ punctuation.

Definition too_short : string := "Password length must be at least 1.".

Section Random.

(** [random.choice] at its [k]-th call draws the index [randbelow k n]
    below the length [n] of the sequence. *)
Variable randbelow : nat -> nat -> nat.

Definition choice (k : nat) (seq : string) : ascii :=
  match String.get (randbelow k (String.length seq)) seq with
  | Some c => c
  | None => Ascii.zero
  end.

(** The characters drawn at the calls [k], [k + 1], ... *)
Fixpoint draws (k count : nat) : string :=
  match count with
  | O => EmptyString
  | S count' => String (choice k all_characters) (draws (S k) count')
  end.

Definition generate_password (length : Z) : string :=
  if (length <? 1)%Z then too_short
  else draws 0 (Z.to_nat length).

End Random.

End PasswordGenerator.

(* ================================================================== *)
(** ** Facts about the string primitives *)

Module PyStrFacts.
Import PyStr.

Lemma prefix_head_neq c d old s :
  c <> d -> prefix (String c old) (String d s) = false.
Proof.
  intros Hcd. simpl.
  destruct (ascii_dec c d) as [E | _]; [ contradiction | reflexivity ].
Qed.

Lemma mem_cons_false c d s :
  mem c (String d s) = false -> c <> d /\ mem c s = false.
Proof.
  simpl. intros H. apply orb_false_iff in H. destruct H as [H1 H2].
  split; [ now apply Ascii.eqb_neq | exact H2 ].
Qed.

Lemma mem_app c a b : mem c (a ++ b) = mem c a || mem c b.
Proof.
  induction a as [| d a IH]; simpl; [ reflexivity | ].
  now rewrite IH, orb_assoc.
Qed.

Lemma forallb_app p a b : forallb p (a ++ b) = forallb p a && forallb p b.
Proof.
  induction a as [| d a IH]; simpl; [ reflexivity | ].
  now rewrite IH, andb_assoc.
Qed.

(** A character rejected by [p] is absent from a string accepted by
    [p]. *)
Lemma forallb_mem p c s :
  forallb p s = true -> p c = false -> mem c s = false.
Proof.
  intros Hs Hc. induction s as [| d s IH]; simpl in *; [ reflexivity | ].
  apply andb_true_iff in Hs. destruct Hs as [Hd Hs].
  rewrite (IH Hs), orb_false_r. apply Ascii.eqb_neq. intros ->. congruence.
Qed.

(** [replace] goes through a text in which the first character of [old]
    does not occur. *)
Lemma replace_app_absent c old new a b :
  mem c a = false ->
  replace (String c old) new (a ++ b) = a ++ replace (String c old) new b.
Proof.
  unfold replace. induction a as [| d a IH]; intros H; [ reflexivity | ].
  apply mem_cons_false in H. destruct H as [Hcd Ha].
  change (String d a ++ b) with (String d (a ++ b)).
  cbn [replace_from]. rewrite (prefix_head_neq _ _ _ _ Hcd).
  now rewrite (IH Ha).
Qed.

Lemma replace_absent c old new s :
  mem c s = false -> replace (String c old) new s = s.
Proof.
  intros H. generalize (replace_app_absent c old new s EmptyString H).
  assert (E : forall x, x ++ EmptyString = x)
    by (induction x as [| y x IHx]; simpl; [ | rewrite IHx ]; reflexivity).
  rewrite E. intros ->. unfold replace. simpl. apply E.
Qed.

(** An occurrence of [old] is replaced by [new]. *)
Lemma replace_from_skip old new n a b :
  length a = n -> replace_from old new n (a ++ b) = replace_from old new 0 b.
Proof.
  revert n. induction a as [| d a IH]; intros n H; simpl in H; subst n.
  - simpl. reflexivity.
  - simpl. apply IH. reflexivity.
Qed.

Lemma prefix_empty s : prefix EmptyString s = true.
Proof. now destruct s. Qed.

Lemma prefix_app a b : prefix a (a ++ b) = true.
Proof.
  induction a as [| d a IH]; simpl; [ apply prefix_empty | ].
  destruct (ascii_dec d d); [ exact IH | contradiction ].
Qed.

Lemma replace_occurrence c old new s :
  replace (String c old) new (String c old ++ s)
  = new ++ replace (String c old) new s.
Proof.
  unfold replace. change (String c old ++ s) with (String c (old ++ s)).
  cbn [replace_from].
  change (String c (old ++ s)) with (String c old ++ s).
  rewrite prefix_app. f_equal.
  apply replace_from_skip. simpl. lia.
Qed.

(** Nothing but the letter [m] itself is touched by the last
    replacement, and no [m] is left when the new text has none. *)
Lemma replace_m_no_m new s :
  mem "m" new = false -> mem "m" (replace "m" new s) = false.
Proof.
  intros Hnew. unfold replace. induction s as [| d s IH]; [ reflexivity | ].
  cbn [replace_from prefix].
  destruct (ascii_dec "m" d) as [E | N].
  - rewrite prefix_empty, mem_app, Hnew. exact IH.
  - cbn [mem]. rewrite IH, orb_false_r. now apply Ascii.eqb_neq.
Qed.

Lemma match_call_head_neq c d name s :
  c <> d -> match_call (String c name) (String d s) = None.
Proof.
  intros H. unfold match_call.
  change (String c name ++ "(") with (String c (name ++ "(")).
  now rewrite prefix_head_neq.
Qed.

Lemma re_sub_call_absent c name repl s :
  mem c s = false -> re_sub_call (String c name) repl s = s.
Proof.
  unfold re_sub_call. induction s as [| d s IH]; intros H; [ reflexivity | ].
  apply mem_cons_false in H. destruct H as [Hcd Hs].
  cbn [re_sub_from]. rewrite (match_call_head_neq _ _ _ _ Hcd).
  now rewrite (IH Hs).
Qed.

(** The rewriting of a call: the name is replaced, the group kept. *)
Lemma find_close_group g rest :
  mem ")" g = false -> mem newline g = false ->
  find_close (g ++ String ")" rest) = Some (length g).
Proof.
  induction g as [| d g IH]; intros H1 H2; [ reflexivity | ].
  apply mem_cons_false in H1. destruct H1 as [N1 H1].
  apply mem_cons_false in H2. destruct H2 as [N2 H2].
  simpl.
  apply not_eq_sym, Ascii.eqb_neq in N1. rewrite N1.
  apply not_eq_sym, Ascii.eqb_neq in N2. rewrite N2.
  now rewrite (IH H1 H2).
Qed.

Lemma lower_fixed s :
  forallb (fun c => negb (is_upper c)) s = true -> lower s = s.
Proof.
  induction s as [| d s IH]; simpl; intros H; [ reflexivity | ].
  apply andb_true_iff in H. destruct H as [Hd Hs].
  unfold lower_char. apply negb_true_iff in Hd. rewrite Hd.
  now rewrite (IH Hs).
Qed.

Lemma append_assoc a b c : (a ++ b) ++ c = a ++ (b ++ c).
Proof.
  induction a as [| d a IH]; simpl; [ reflexivity | now rewrite IH ].
Qed.

Lemma length_append a b : length (a ++ b) = length a + length b.
Proof.
  induction a as [| d a IH]; simpl; [ reflexivity | now rewrite IH ].
Qed.

Lemma drop_app a b : drop (length a) (a ++ b) = b.
Proof.
  induction a as [| d a IH]; simpl; [ now destruct b | exact IH ].
Qed.

Lemma re_sub_from_skip name repl n k a b :
  length a = n ->
  re_sub_from name repl n k (a ++ b) = re_sub_from name repl 0 k b.
Proof.
  revert n. induction a as [| d a IH]; intros n H; simpl in H; subst n.
  - reflexivity.
  - simpl. now apply IH.
Qed.

Lemma re_sub_from_copy name repl k a b :
  length a = k ->
  re_sub_from name repl 0 k (a ++ b) = a ++ re_sub_from name repl 0 0 b.
Proof.
  revert k. induction a as [| d a IH]; intros k H; simpl in H; subst k.
  - reflexivity.
  - simpl. f_equal. now apply IH.
Qed.

(** [re.sub] at a call [name(g)]: the name becomes [repl], the group [g]
    is kept, and the search goes on behind the closing parenthesis. *)
Lemma re_sub_call_occurrence c name repl g rest :
  mem ")" g = false -> mem newline g = false ->
  re_sub_call (String c name) repl
              (String c name ++ "(" ++ g ++ ")" ++ rest)
  = repl ++ "(" ++ g ++ ")" ++ re_sub_call (String c name) repl rest.
Proof.
  intros H1 H2. unfold re_sub_call.
  assert (M : match_call (String c name)
                (String c name ++ "(" ++ g ++ ")" ++ rest)
              = Some (length g)).
  { unfold match_call.
    rewrite <- (append_assoc (String c name) "(" (g ++ ")" ++ rest)).
    rewrite prefix_app.
    replace (length (String c name) + 1)
      with (length (String c name ++ "("))
      by (rewrite length_append; reflexivity).
    rewrite drop_app. now apply find_close_group. }
  change (String c name ++ "(" ++ g ++ ")" ++ rest)
    with (String c (name ++ "(" ++ g ++ ")" ++ rest)) at 1.
  cbn [re_sub_from].
  change (String c (name ++ "(" ++ g ++ ")" ++ rest))
    with (String c name ++ "(" ++ g ++ ")" ++ rest).
  rewrite M. f_equal.
  rewrite re_sub_from_skip by (simpl; lia).
  replace ("(" ++ g ++ ")" ++ rest) with (("(" ++ g ++ ")") ++ rest)
    by (simpl; now rewrite append_assoc).
  rewrite re_sub_from_copy.
  - simpl. now rewrite append_assoc.
  - simpl. rewrite length_append. simpl. lia.
Qed.

End PyStrFacts.

(* ================================================================== *)
(** ** Facts about [str] of a number *)

Module PyNumFacts.
Import PyStr PyNum PyStrFacts.

Lemma numeric_uint u :
  forallb numeric_char (NilEmpty.string_of_uint u) = true.
Proof.
  induction u; simpl; try rewrite IHu; reflexivity.
Qed.

Lemma numeric_uint_zero u :
  forallb numeric_char (NilZero.string_of_uint u) = true.
Proof.
  destruct u; unfold NilZero.string_of_uint; try reflexivity;
    apply numeric_uint.
Qed.

Lemma numeric_digits n : forallb numeric_char (str_nat_digits n) = true.
Proof. apply numeric_uint_zero. Qed.

Lemma numeric_str_int z : forallb numeric_char (str_int z) = true.
Proof.
  unfold str_int, NilZero.string_of_int.
  destruct (Z.to_int z);
    [ | cbn [forallb]; change (numeric_char "-") with true ];
    apply numeric_uint_zero.
Qed.

Lemma numeric_zeros n : forallb numeric_char (zeros n) = true.
Proof. induction n; simpl; [ reflexivity | exact IHn ]. Qed.

Lemma numeric_take n s :
  forallb numeric_char s = true -> forallb numeric_char (take n s) = true.
Proof.
  revert s. induction n as [| n IH]; intros [| c s] H; try reflexivity.
  cbn [take forallb] in *. apply andb_true_iff in H. destruct H as [Hc Hs].
  now rewrite Hc, (IH s Hs).
Qed.

Lemma numeric_drop n s :
  forallb numeric_char s = true -> forallb numeric_char (drop n s) = true.
Proof.
  revert s. induction n as [| n IH]; intros [| c s] H; try assumption.
  cbn [drop forallb] in *. apply andb_true_iff in H. destruct H as [_ Hs].
  now apply IH.
Qed.

Lemma numeric_exponent x : forallb numeric_char (str_exponent x) = true.
Proof.
  unfold str_exponent. cbn [forallb]. change (numeric_char "e") with true.
  rewrite !forallb_app, numeric_digits.
  destruct (x <? 0)%Z, (Z.abs x <? 10)%Z; reflexivity.
Qed.

Lemma numeric_format ds decpt :
  forallb numeric_char ds = true ->
  forallb numeric_char (format_repr ds decpt) = true.
Proof.
  intros H. unfold format_repr.
  destruct ((decpt <=? -4)%Z || (16 <? decpt)%Z).
  - destruct ds as [| d [| d' rest]]; [ reflexivity | | ].
    + cbn [forallb] in *. apply andb_true_iff in H. destruct H as [Hd _].
      now rewrite Hd, numeric_exponent.
    + cbn [forallb] in H. apply andb_true_iff in H. destruct H as [Hd H].
      cbn [forallb]. rewrite Hd, !forallb_app, numeric_exponent.
      change (forallb numeric_char (String d' rest)) with
        (numeric_char d' && forallb numeric_char rest).
      now rewrite H.
  - destruct (decpt <=? 0)%Z; [ | destruct (decpt <? Z.of_nat (length ds))%Z ];
      rewrite !forallb_app.
    + now rewrite numeric_zeros, H.
    + now rewrite numeric_take, numeric_drop.
    + now rewrite numeric_zeros, H.
Qed.

Lemma numeric_str_float f : forallb numeric_char (str_float f) = true.
Proof.
  assert (F : forall m e, forallb numeric_char (str_finite m e) = true).
  { intros m e. unfold str_finite.
    destruct (shortest_from m e (decimal_exponent m e) 16) as [c p].
    destruct (strip_zeros 17 c p) as [c' p'].
    apply numeric_format, numeric_digits. }
  destruct f as [[] | [] | | [] m e]; try reflexivity.
  - cbn [str_float forallb]. now rewrite F.
  - apply F.
Qed.

Lemma numeric_str v : forallb numeric_char (str v) = true.
Proof.
  destruct v; [ apply numeric_str_int | apply numeric_str_float ].
Qed.

(** [str] of a number has no letter [m]. *)
Lemma str_no_m v : mem "m" (str v) = false.
Proof.
  apply (forallb_mem numeric_char); [ apply numeric_str | reflexivity ].
Qed.

(** [str] on a few floats: the shortest digits, the point or the
    exponent. *)
Example str_one_tenth : str (PyFloat (ratio_to_float false 1 10)) = "0.1".
Proof. vm_compute. reflexivity. Qed.

Example str_three_tenths :
  str (PyFloat (SFadd prec emax (decimal_to_float 1 (-1))
                                (decimal_to_float 2 (-1))))
  = "0.30000000000000004".
Proof. vm_compute. reflexivity. Qed.

Example str_large : str (PyFloat (decimal_to_float 1 16)) = "1e+16".
Proof. vm_compute. reflexivity. Qed.

Example str_small : str (PyFloat (decimal_to_float 1 (-5))) = "1e-05".
Proof. vm_compute. reflexivity. Qed.

Example str_integral : str (PyFloat (Z_to_float 5)) = "5.0".
Proof. vm_compute. reflexivity. Qed.

End PyNumFacts.

(* ================================================================== *)
(** ** Facts about numerals in the text handed to [eval] *)

Module PyExprFacts.
Import PyStr PyNum PyExpr PyStrFacts PyNumFacts.

(** The grammar on a few texts. *)
Example parse_precedence :
  eval_arith "2 + 3 * 4" = Some (Return (PyInt 14))
  /\ eval_arith "-2 ** 2" = Some (Return (PyInt (-4)))
  /\ eval_arith "2 ** 3 ** 2" = Some (Return (PyInt 512))
  /\ eval_arith "7 - 2 - 1" = Some (Return (PyInt 4))
  /\ eval_arith "-7 // 2" = Some (Return (PyInt (-4)))
  /\ eval_arith "1 / 4" = Some (Return (PyFloat (decimal_to_float 25 (-2)))).
Proof. vm_compute. repeat split. Qed.

Example eval_errors :
  eval_arith "2 3" = Some (Raise SyntaxError)
  /\ eval_arith "(2" = Some (Raise SyntaxError)
  /\ eval_arith "012" = Some (Raise SyntaxError)
  /\ eval_arith "x + 1/0" = Some (Raise NameLookupError)
  /\ eval_arith "1/0 + x" = Some (Raise ZeroDivisionError)
  /\ eval_arith "10 ** 400 * 1.0" = Some (Raise OverflowError).
Proof. vm_compute. repeat split. Qed.

Example eval_unmodelled :
  eval_arith "1 < 2" = None
  /\ eval_arith "1 if 2 else 3" = None
  /\ eval_arith "math.sqrt(4)" = None
  /\ eval_arith "2 ** 0.5" = None.
Proof. vm_compute. repeat split. Qed.

Lemma span_all p s : forallb p s = true -> span p s = (s, EmptyString).
Proof.
  induction s as [| c s IH]; simpl; intros H; [ reflexivity | ].
  apply andb_true_iff in H. destruct H as [Hc Hs].
  now rewrite Hc, (IH Hs).
Qed.

Lemma digits_uint u : forallb is_digit (NilEmpty.string_of_uint u) = true.
Proof. induction u; simpl; try rewrite IHu; reflexivity. Qed.

Lemma to_uint_nonnil n : N.to_uint n <> Decimal.Nil.
Proof.
  destruct n as [| p]; [ discriminate | apply Unsigned.to_uint_nonnil ].
Qed.

Lemma str_nat_digits_eq n :
  str_nat_digits n = NilEmpty.string_of_uint (N.to_uint n).
Proof.
  unfold str_nat_digits, NilZero.string_of_uint.
  pose proof (to_uint_nonnil n) as H.
  destruct (N.to_uint n); [ contradiction | reflexivity .. ].
Qed.



Lemma digits_str n : forallb is_digit (str_nat_digits n) = true.
Proof. rewrite str_nat_digits_eq. apply digits_uint. Qed.


Lemma digit_not_space c : is_digit c = true -> is_space c = false.
Proof.
  destruct c as [[] [] [] [] [] [] [] []]; try discriminate; reflexivity.
Qed.

Lemma str_nat_digits_cons n : exists c s, str_nat_digits n = String c s.
Proof.
  rewrite str_nat_digits_eq. pose proof (to_uint_nonnil n) as H.
  destruct (N.to_uint n); [ contradiction | simpl; eauto .. ].
Qed.





(** [span] stops where the text accepted by [p] ends. *)
Lemma span_app p a b :
  forallb p a = true ->
  match b with String c _ => p c = false | EmptyString => True end ->
  span p (a ++ b) = (a, b).
Proof.
  intros Ha Hb. induction a as [| c a IH]; simpl.
  - destruct b as [| c b]; [ reflexivity | ]. simpl. now rewrite Hb.
  - simpl in Ha. apply andb_true_iff in Ha. destruct Ha as [Hc Ha].
    now rewrite Hc, (IH Ha).
Qed.

Lemma lex_exponent_broken rest x :
  exponent_part x ->
  exists ex,
    match lex_exponent (x ++ broken rest) with
    | Some (v, r) => (Some v, r)
    | None => (None, x ++ broken rest)
    end = (ex, broken rest).
Proof.
  intros [| sign ds Hs Hne Hd].
  - exists None. reflexivity.
  - destruct Hs as [-> | ->]; eexists; cbn [append lex_exponent];
      rewrite (span_app is_digit ds (broken rest) Hd eq_refl);
      (destruct ds; [ contradiction | reflexivity ]).
Qed.

Lemma lex_number_broken rest a frac x :
  a <> EmptyString -> forallb is_digit a = true ->
  fraction_part frac -> exponent_part x ->
  lex_number (a ++ frac ++ x ++ broken rest) = LexError.
Proof.
  intros Hne Ha Hf Hx. unfold lex_number.
  assert (Hx0 : match x ++ broken rest with
                | String c _ => is_digit c = false
                | EmptyString => True
                end) by (destruct Hx; reflexivity).
  destruct (lex_exponent_broken rest x Hx) as [ex Hex].
  rewrite (span_app is_digit a (frac ++ x ++ broken rest) Ha).
  2:{ destruct Hf; [ exact Hx0 | reflexivity ]. }
  destruct Hf as [| b Hb].
  - cbn [append].
    assert (E : match x ++ broken rest with
                | String "." r =>
                    let '(fp, r2) := span is_digit r in (true, fp, r2)
                | _ => (false, EmptyString, x ++ broken rest)
                end = (false, EmptyString, x ++ broken rest))
      by (destruct Hx; reflexivity).
    rewrite E, Hex. reflexivity.
  - cbn [append]. rewrite (span_app is_digit b (x ++ broken rest) Hb Hx0).
    rewrite Hex. reflexivity.
Qed.

Lemma append_empty s : s ++ EmptyString = s.
Proof. induction s as [| c s IH]; simpl; [ | rewrite IH ]; reflexivity. Qed.

Lemma digits_zeros n : forallb is_digit (zeros n) = true.
Proof. induction n; simpl; [ reflexivity | exact IHn ]. Qed.

Lemma digits_take n s :
  forallb is_digit s = true -> forallb is_digit (take n s) = true.
Proof.
  revert s. induction n as [| n IH]; intros [| c s] H; try reflexivity.
  cbn [take forallb] in *. apply andb_true_iff in H. destruct H as [Hc Hs].
  now rewrite Hc, (IH s Hs).
Qed.

Lemma digits_drop n s :
  forallb is_digit s = true -> forallb is_digit (drop n s) = true.
Proof.
  revert s. induction n as [| n IH]; intros [| c s] H; try assumption.
  cbn [drop forallb] in *. apply andb_true_iff in H. destruct H as [_ Hs].
  now apply IH.
Qed.

Lemma str_exponent_part z : exponent_part (str_exponent z).
Proof.
  unfold str_exponent.
  destruct (str_nat_digits_cons (Z.to_N (Z.abs z))) as (c & s & E).
  pose proof (digits_str (Z.to_N (Z.abs z))) as D. rewrite E in *.
  destruct (z <? 0)%Z, (Z.abs z <? 10)%Z; cbn [append];
    apply signed_exponent; auto; discriminate.
Qed.

Lemma format_repr_numeral ds decpt :
  ds <> EmptyString -> forallb is_digit ds = true ->
  numeral (format_repr ds decpt).
Proof.
  intros Hne Hd. unfold format_repr.
  destruct ((decpt <=? -4)%Z || (16 <? decpt)%Z).
  - destruct ds as [| d [| d' rest]]; [ contradiction | | ].
    + exists (String d EmptyString), EmptyString, (str_exponent (decpt - 1)).
      repeat split;
        [ discriminate | exact Hd | constructor | apply str_exponent_part ].
    + cbn [forallb] in Hd. apply andb_true_iff in Hd. destruct Hd as [H1 H2].
      exists (String d EmptyString), (String "." (String d' rest)),
        (str_exponent (decpt - 1)).
      repeat split;
        [ discriminate | cbn [forallb]; now rewrite H1
        | now constructor | apply str_exponent_part ].
  - destruct (decpt <=? 0)%Z eqn:Z0;
      [ | destruct (decpt <? Z.of_nat (length ds))%Z ].
    + exists "0", (String "." (zeros (Z.to_nat (- decpt)) ++ ds)), EmptyString.
      repeat split; [ now rewrite append_empty | discriminate | | constructor ].
      constructor. now rewrite forallb_app, digits_zeros, Hd.
    + exists (take (Z.to_nat decpt) ds),
        (String "." (drop (Z.to_nat decpt) ds)), EmptyString.
      repeat split;
        [ now rewrite append_empty | | now apply digits_take | | constructor ].
      * apply Z.leb_gt in Z0.
        destruct (Z.to_nat decpt) as [| k] eqn:K; [ lia | ].
        destruct ds; [ contradiction | discriminate ].
      * constructor. now apply digits_drop.
    + exists (ds ++ zeros (Z.to_nat (decpt - Z.of_nat (length ds)))),
        ".0", EmptyString.
      repeat split;
        [ now rewrite append_assoc | | | now constructor | constructor ].
      * destruct ds; [ contradiction | discriminate ].
      * now rewrite forallb_app, digits_zeros, Hd.
Qed.

Lemma str_finite_numeral m e : numeral (str_finite m e).
Proof.
  unfold str_finite.
  destruct (shortest_from m e (decimal_exponent m e) 16) as [c p].
  destruct (strip_zeros 17 c p) as [c' p'].
  apply format_repr_numeral; [ | apply digits_str ].
  destruct (str_nat_digits_cons c') as (d & s & ->). discriminate.
Qed.

Lemma tokenize_numeral_broken rest s :
  numeral s -> tokenize (s ++ broken rest) = LexError.
Proof.
  intros (a & frac & x & -> & Hne & Ha & Hf & Hx).
  pose proof (lex_number_broken rest a frac x Hne Ha Hf Hx) as L.
  rewrite !append_assoc. unfold tokenize.
  destruct a as [| c a]; [ contradiction | ].
  cbn [forallb] in Ha. apply andb_true_iff in Ha. destruct Ha as [Hc _].
  cbn [append length lex] in *.
  now rewrite (digit_not_space c Hc), Hc, L.
Qed.

Lemma tokenize_minus s :
  tokenize (String "-" s) = match tokenize s with
                            | Lexed ts => Lexed (TMinus :: ts)
                            | r => r
                            end.
Proof. reflexivity. Qed.

Lemma eval_arith_numeral_broken rest s :
  numeral s ->
  eval_arith (s ++ broken rest) = Some (Raise SyntaxError)
  /\ eval_arith (String "-" s ++ broken rest) = Some (Raise SyntaxError).
Proof.
  intros H. unfold eval_arith. cbn [append].
  now rewrite tokenize_minus, (tokenize_numeral_broken rest s H).
Qed.

(** Behind any number the broken call is an error, once it is one behind
    [nan], [inf] and [-inf], which read as names. *)
Lemma eval_arith_broken rest :
  (forall w, In w ["nan"; "inf"; "-inf"] ->
             eval_arith (w ++ broken rest) = Some (Raise NameLookupError)) ->
  forall v,
    eval_arith (str v ++ broken rest) = Some (Raise SyntaxError)
    \/ eval_arith (str v ++ broken rest) = Some (Raise NameLookupError).
Proof.
  intros Hw v.
  assert (D : forall n, numeral (str_nat_digits n)).
  { intros n. exists (str_nat_digits n), EmptyString, EmptyString.
    rewrite append_empty.
    repeat split; [ | apply digits_str | constructor | constructor ].
    destruct (str_nat_digits_cons n) as (d & s & ->). discriminate. }
  assert (Z : numeral "0.0").
  { exists "0", ".0", EmptyString.
    repeat split; [ discriminate | now constructor | constructor ]. }
  destruct v as [[| p | p] | [[] | [] | | [] m e]].
  - left. apply (eval_arith_numeral_broken rest _ (D 0%N)).
  - left. apply (eval_arith_numeral_broken rest _ (D (N.pos p))).
  - left. apply (eval_arith_numeral_broken rest _ (D (N.pos p))).
  - left. apply (eval_arith_numeral_broken rest _ Z).
  - left. apply (eval_arith_numeral_broken rest _ Z).
  - right. apply (Hw "-inf"). simpl. tauto.
  - right. apply (Hw "inf"). simpl. tauto.
  - right. apply (Hw "nan"). simpl. tauto.
  - left. apply (eval_arith_numeral_broken rest _ (str_finite_numeral m e)).
  - left. apply (eval_arith_numeral_broken rest _ (str_finite_numeral m e)).
Qed.

End PyExprFacts.

(* ================================================================== *)
(** ** Facts about the engine *)

Module CalculatorEngineFacts.
Import PyStr PyNum PyStrFacts PyNumFacts CalculatorEngine.

(** The two constants as [prepare] writes them. *)
Example str_math_pi : str (PyFloat math_pi) = "3.141592653589793".
Proof. vm_compute. reflexivity. Qed.

Example str_math_e : str (PyFloat math_e) = "2.718281828459045".
Proof. vm_compute. reflexivity. Qed.

Example prepare_constants :
  prepare init "2*PI + e" = "2*3.141592653589793 + 2.718281828459045".
Proof. vm_compute. reflexivity. Qed.

(** A call inside the group of a call of the same function is passed
    over; one of another function is rewritten in its own pass. *)
Example prepare_nested_calls :
  prepare init "sin(sin(1))" = "0ath.sin(sin(1))"
  /\ prepare init "sin(cos(0))" = "0ath.sin(0ath.cos(0))".
Proof. vm_compute. split; reflexivity. Qed.

Lemma plain_no_upper s :
  plain s = true -> forallb (fun c => negb (is_upper c)) s = true.
Proof.
  unfold plain. induction s as [| c s IH]; simpl; intros H; [ reflexivity | ].
  apply andb_true_iff in H. destruct H as [Hc Hs].
  unfold plain_char in Hc. apply andb_true_iff in Hc. destruct Hc as [Hc _].
  apply andb_true_iff in Hc. destruct Hc as [_ Hu].
  now rewrite Hu, (IH Hs).
Qed.



Ltac absent :=
  apply (forallb_mem plain_char); [ assumption | reflexivity ].

Lemma prepare_plain self raw : plain raw = true -> prepare self raw = raw.
Proof.
  intros H. unfold plain in H. unfold prepare, pi_glyph.
  rewrite (lower_fixed raw) by (now apply plain_no_upper).
  rewrite (replace_absent (ascii_of_nat 207) _ _ raw) by absent.
  rewrite (replace_absent "p" _ _ raw) by absent.
  rewrite (replace_absent "e" _ _ raw) by absent.
  rewrite (re_sub_call_absent "s" _ _ raw) by absent.
  rewrite (re_sub_call_absent "s" _ _ raw) by absent.
  rewrite (re_sub_call_absent "c" _ _ raw) by absent.
  rewrite (re_sub_call_absent "t" _ _ raw) by absent.
  rewrite (re_sub_call_absent "l" _ _ raw) by absent.
  rewrite (re_sub_call_absent "l" _ _ raw) by absent.
  rewrite (replace_absent "^" _ _ raw) by absent.
  rewrite (replace_absent "a" _ _ raw) by absent.
  now rewrite (replace_absent "m" _ _ raw) by absent.
Qed.

(** The text handed to [eval] never has the letter [m], so never the name
    [math]. *)
Lemma prepare_no_m self expression :
  mem "m" (prepare self expression) = false.
Proof. unfold prepare. apply replace_m_no_m, str_no_m. Qed.

Lemma add_float_returns self f v :
  to_float (memory self) = Return f ->
  add_to_memory (PyFloat v) self
  = (Return tt, set_memory (PyFloat (SFadd prec emax f v)) self).
Proof.
  intros H. unfold add_to_memory, add, float_op.
  destruct (memory self) as [z | g]; rewrite H; reflexivity.
Qed.

Lemma subtract_float_returns self f v :
  to_float (memory self) = Return f ->
  subtract_from_memory (PyFloat v) self
  = (Return tt, set_memory (PyFloat (SFsub prec emax f v)) self).
Proof.
  intros H. unfold subtract_from_memory, sub, float_op.
  destruct (memory self) as [z | g]; rewrite H; reflexivity.
Qed.

(** The calls of the examples, as [eval] gets them: the memory in the
    place of the [m] of [math]. *)
Ltac prepare_by_computation self :=
  unfold prepare;
  generalize (str (last_result self)); generalize (str (memory self));
  intros ? ?; vm_compute; reflexivity.

Lemma prepare_sqrt_4 self :
  prepare self "sqrt(4)" = str (memory self) ++ PyExpr.broken "sqrt(4)".
Proof. prepare_by_computation self. Qed.

Lemma prepare_sqrt_minus_1 self :
  prepare self "sqrt(-1)" = str (memory self) ++ PyExpr.broken "sqrt(-1)".
Proof. prepare_by_computation self. Qed.

Lemma prepare_log_0 self :
  prepare self "log(0)" = str (memory self) ++ PyExpr.broken "log10(0)".
Proof. prepare_by_computation self. Qed.

Lemma prepare_ln_0 self :
  prepare self "ln(0)" = str (memory self) ++ PyExpr.broken "log(0)".
Proof. prepare_by_computation self. Qed.

(** A call that reaches [eval] broken fails, on the syntax or on a name
    that is bound nowhere. *)
Lemma evaluate_broken other self expression rest :
  prepare self expression = str (memory self) ++ PyExpr.broken rest ->
  (forall w, In w ["nan"; "inf"; "-inf"] ->
             PyExpr.eval_arith (w ++ PyExpr.broken rest)
             = Some (Raise NameLookupError)) ->
  exists cause,
    (cause = SyntaxError \/ cause = NameLookupError)
    /\ evaluate (PyExpr.eval other) expression self
       = (Raise (ValueError cause), self).
Proof.
  intros Hp Hw. unfold evaluate, PyExpr.eval. rewrite Hp.
  destruct (PyExprFacts.eval_arith_broken rest Hw (memory self)) as [E | E];
    rewrite E; [ exists SyntaxError | exists NameLookupError ];
    (split; [ auto | reflexivity ]).
Qed.

Ltac names_by_computation :=
  intros w [<- | [<- | [<- | []]]]; vm_compute; reflexivity.

Section Evaluate.
Variable py_eval : string -> outcome num.


Lemma evaluate_raise expression self e :
  py_eval (prepare self expression) = Raise e ->
  evaluate py_eval expression self = (Raise (ValueError e), self).
Proof. intros H. unfold evaluate. now rewrite H. Qed.





End Evaluate.

End CalculatorEngineFacts.

(* ================================================================== *)
(** ** The specification, claim by claim *)

Module EngineSpec.
Import PyStr PyNum PyStrFacts PyNumFacts.
Import CalculatorEngine CalculatorEngineFacts.




(** C2 (the engine falls short of it).  The last step of [prepare]
    replaces every letter [m], also the one of the name [math] that the
    steps before it have just written: whatever the instance, no [m] is
    left in the text handed to [eval], ["sqrt(4)"] becomes the memory
    followed by ["ath.sqrt(4)"], and its evaluation fails, whatever number
    the memory holds; on a new instance, as with 5.0 in the memory, it
    fails on a syntax error. *)
Theorem function_names_are_corrupted :
  (forall self expression, mem "m" (prepare self expression) = false)
  /\ (forall self,
        prepare self "sqrt(4)" = str (memory self) ++ "ath.sqrt(4)")
  /\ (forall other self,
        exists cause,
          (cause = SyntaxError \/ cause = NameLookupError)
          /\ evaluate (PyExpr.eval other) "sqrt(4)" self
             = (Raise (ValueError cause), self))
  /\ (forall other,
        evaluate (PyExpr.eval other) "sqrt(4)" init
        = (Raise (ValueError SyntaxError), init))
  /\ (forall other,
        let s := snd (store_in_memory (PyFloat (decimal_to_float 5 0)) init) in
        prepare s "sqrt(4)" = "5.0ath.sqrt(4)"
        /\ evaluate (PyExpr.eval other) "sqrt(4)" s
           = (Raise (ValueError SyntaxError), s)).
Proof.
  split; [ | split; [ | split; [ | split ] ] ].
  - intros. apply prepare_no_m.
  - intros self. apply prepare_sqrt_4.
  - intros other self.
    apply (evaluate_broken other self "sqrt(4)" "sqrt(4)");
      [ apply prepare_sqrt_4 | names_by_computation ].
  - intros other. vm_compute. reflexivity.
  - intros other s. split; vm_compute; reflexivity.
Qed.

(** C3 (the engine falls short of it).  Whatever the instance, ["1/0"]
    fails and changes nothing, but the exception is a [ValueError] that
    quotes the division by zero: no call of [evaluate] raises a
    [ZeroDivisionError].  ["sqrt(-1)"], ["log(0)"] and ["ln(0)"] fail and
    change nothing, but not on the domain of the function: on a new
    instance the cause is the syntax error that the corrupted name [math]
    makes, and whatever the instance it is that or a name bound
    nowhere. *)
Theorem errors_are_value_errors :
  (forall other self,
      evaluate (PyExpr.eval other) "1/0" self
      = (Raise (ValueError ZeroDivisionError), self))
  /\ (forall py_eval expression self,
        match fst (evaluate py_eval expression self) with
        | Return _ => True
        | Raise e => exists cause, e = ValueError cause
        end)
  /\ (forall other,
        evaluate (PyExpr.eval other) "sqrt(-1)" init
        = (Raise (ValueError SyntaxError), init)
        /\ evaluate (PyExpr.eval other) "log(0)" init
           = (Raise (ValueError SyntaxError), init)
        /\ evaluate (PyExpr.eval other) "ln(0)" init
           = (Raise (ValueError SyntaxError), init))
  /\ (forall other self,
        let fails expression :=
          exists cause,
            (cause = SyntaxError \/ cause = NameLookupError)
            /\ evaluate (PyExpr.eval other) expression self
               = (Raise (ValueError cause), self) in
        fails "sqrt(-1)" /\ fails "log(0)" /\ fails "ln(0)").
Proof.
  split; [ | split; [ | split ] ].
  - intros other self. unfold evaluate.
    assert (E : prepare self "1/0" = "1/0") by (now apply prepare_plain).
    rewrite E. reflexivity.
  - intros py_eval expression self. unfold evaluate.
    destruct (py_eval (prepare self expression)) as [r | x]; cbn;
      [ exact I | now exists x ].
  - intros other.
    split; [ | split ]; vm_compute; reflexivity.
  - intros other self fails. unfold fails. split; [ | split ].
    + apply (evaluate_broken other self "sqrt(-1)" "sqrt(-1)");
        [ apply prepare_sqrt_minus_1 | names_by_computation ].
    + apply (evaluate_broken other self "log(0)" "log10(0)");
        [ apply prepare_log_0 | names_by_computation ].
    + apply (evaluate_broken other self "ln(0)" "log(0)");
        [ apply prepare_ln_0 | names_by_computation ].
Qed.










(** C8.  Whatever the instance, the text ["ans * 10"] handed to [eval]
    is the last result followed by [" * 10"]; on a new instance
    ["2 + 2"] evaluates to 4 and then ["ans * 10"] to 40, the integers
    that equal 4.0 and 40.0. *)
Theorem ans_is_last_result :
  (forall self, prepare self "ans * 10" = str (last_result self) ++ " * 10")
  /\ (forall other,
        let r1 := evaluate (PyExpr.eval other) "2 + 2" init in
        let r2 := evaluate (PyExpr.eval other) "ans * 10" (snd r1) in
        fst r1 = Return (PyInt 4)
        /\ eqb (PyInt 4) (PyFloat (decimal_to_float 40 (-1))) = true
        /\ prepare (snd r1) "ans * 10" = "4 * 10"
        /\ fst r2 = Return (PyInt 40)
        /\ eqb (PyInt 40) (PyFloat (decimal_to_float 400 (-1))) = true).
Proof.
  split.
  - intros self. unfold prepare.
    pose proof (str_no_m (last_result self)) as HA. revert HA.
    generalize (str (last_result self)); generalize (str (memory self)).
    intros mm a HA.
    match goal with
    | |- replace "m" mm ?inner = _ =>
        assert (E : inner = a ++ " * 10") by (vm_compute; reflexivity);
        rewrite E
    end.
    rewrite replace_app_absent by exact HA. f_equal.
  - intros other. vm_compute.
    split; [ | split; [ | split; [ | split ] ] ]; reflexivity.
Qed.



(** C10.  [store_in_memory], [add_to_memory], [subtract_from_memory] and
    [clear_memory] change nothing but the memory: whatever the instance
    and the argument, the history and the last result are the same
    before and after the call. *)
Theorem memory_methods_frame :
  forall self value,
    let same s' := history s' = history self
                   /\ last_result s' = last_result self in
    same (snd (store_in_memory value self))
    /\ same (snd (add_to_memory value self))
    /\ same (snd (subtract_from_memory value self))
    /\ same (snd (clear_memory self)).
Proof.
  intros self value same. unfold same.
  unfold store_in_memory, add_to_memory, subtract_from_memory, clear_memory.
  destruct (add (memory self) value), (sub (memory self) value);
    cbn; repeat split.
Qed.

End EngineSpec.

(* ================================================================== *)
(** ** More about the engine *)

Module EngineMore.
Import PyStr PyNum PyStrFacts PyNumFacts.
Import CalculatorEngine CalculatorEngineFacts EngineCalls PyText.

Lemma lower_char_idempotent c : lower_char (lower_char c) = lower_char c.
Proof.
  destruct c as [[] [] [] [] [] [] [] []]; reflexivity.
Qed.

Lemma lower_idempotent s : lower (lower s) = lower s.
Proof.
  induction s as [| c s IH]; simpl; [ reflexivity | ].
  now rewrite lower_char_idempotent, IH.
Qed.






Lemma forallb_impl (p q : ascii -> bool) s :
  (forall c, p c = true -> q c = true) ->
  forallb p s = true -> forallb q s = true.
Proof.
  intros H. induction s as [| c s IH]; simpl; [ reflexivity | ].
  intros E. apply andb_true_iff in E. destruct E as [Hc Hs].
  now rewrite (H c Hc), (IH Hs).
Qed.









(** *** The symbols [ans] and [m] *)

Lemma append_empty_r s : s ++ EmptyString = s.
Proof. apply PyExprFacts.append_empty. Qed.






(** *** Sequences of calls *)

Section Calls.
Variable py_eval : string -> outcome num.














End Calls.





End EngineMore.

(* ================================================================== *)
(** ** Facts about [strip] and [split] *)

Module PyTextFacts.
Import PyStr PyText PyStrFacts.

Lemma word_cons w :
  word w = true ->
  exists c r, w = String c r /\ is_whitespace c = false
              /\ forallb (fun c => negb (is_whitespace c)) r = true.
Proof.
  unfold word. destruct w as [| c r]; [ discriminate | ]. cbn.
  intros H. apply andb_true_iff in H. destruct H as [Hc Hr].
  unfold word_char in Hc. apply andb_true_iff in Hc. destruct Hc as [_ Hc].
  exists c, r. repeat split; [ now apply negb_true_iff | ].
  revert Hr. apply EngineMore.forallb_impl. intros d Hd.
  unfold word_char in Hd. now apply andb_true_iff in Hd.
Qed.

Lemma word_no_whitespace w :
  word w = true -> forallb (fun c => negb (is_whitespace c)) w = true.
Proof.
  intros H. apply word_cons in H. destruct H as (c & r & -> & Hc & Hr).
  cbn. now rewrite Hc, Hr.
Qed.

Lemma lstrip_blank s : blank s = true -> lstrip s = EmptyString.
Proof.
  unfold blank. induction s as [| c s IH]; simpl; [ reflexivity | ].
  intros H. apply andb_true_iff in H. destruct H as [Hc Hs].
  now rewrite Hc, (IH Hs).
Qed.

Lemma lstrip_app_blank p s : blank p = true -> lstrip (p ++ s) = lstrip s.
Proof.
  unfold blank. induction p as [| c p IH]; simpl; [ reflexivity | ].
  intros H. apply andb_true_iff in H. destruct H as [Hc Hp].
  now rewrite Hc, (IH Hp).
Qed.

Lemma rstrip_blank s : blank s = true -> rstrip s = EmptyString.
Proof.
  unfold blank. induction s as [| c s IH]; simpl; [ reflexivity | ].
  intros H. apply andb_true_iff in H. destruct H as [Hc Hs].
  now rewrite (IH Hs), Hc.
Qed.

Lemma rstrip_app_blank s p : blank p = true -> rstrip (s ++ p) = rstrip s.
Proof.
  intros H. induction s as [| c s IH]; simpl.
  - now apply rstrip_blank.
  - now rewrite IH.
Qed.

Lemma rstrip_word w : word w = true -> rstrip w = w.
Proof.
  intros H. apply word_cons in H. destruct H as (c & r & -> & Hc & Hr).
  revert c Hc. induction r as [| d r IH]; intros c Hc.
  - simpl. now rewrite Hc.
  - cbn [forallb] in Hr. apply andb_true_iff in Hr. destruct Hr as [Hd Hr].
    apply negb_true_iff in Hd.
    change (rstrip (String c (String d r)))
      with (match rstrip (String d r) with
            | EmptyString => if is_whitespace c then EmptyString
                             else String c EmptyString
            | x => String c x
            end).
    now rewrite (IH Hr d Hd).
Qed.

(** Nothing is stripped in front of a word. *)
Lemma rstrip_app_word s w : word w = true -> rstrip (s ++ w) = s ++ w.
Proof.
  intros H. induction s as [| c s IH]; simpl.
  - now apply rstrip_word.
  - rewrite IH. apply word_cons in H. destruct H as (d & r & -> & _).
    now destruct s.
Qed.

Lemma lstrip_word_app w s : word w = true -> lstrip (w ++ s) = w ++ s.
Proof.
  intros H. apply word_cons in H. destruct H as (c & r & -> & Hc & _).
  simpl. now rewrite Hc.
Qed.

Lemma strip_blank s : blank s = true -> strip s = EmptyString.
Proof. intros H. unfold strip. now rewrite lstrip_blank. Qed.

(** A word with blanks around it is stripped to the word. *)
Lemma strip_padded p w q :
  blank p = true -> word w = true -> blank q = true ->
  strip (p ++ w ++ q) = w.
Proof.
  intros Hp Hw Hq. unfold strip.
  rewrite lstrip_app_blank, lstrip_word_app, rstrip_app_blank by assumption.
  now apply rstrip_word.
Qed.

Lemma split_once_unfold s :
  lstrip s = s -> s <> EmptyString ->
  split_once s =
  let '(word, after) := PyExpr.span (fun c => negb (is_whitespace c)) s in
  match lstrip after with
  | EmptyString => [word]
  | rest => [word; rest]
  end.
Proof.
  intros L N. unfold split_once. rewrite L.
  destruct s; [ now elim N | reflexivity ].
Qed.

Lemma word_not_empty w s : word w = true -> (w ++ s) <> EmptyString.
Proof.
  intros H. apply word_cons in H. now destruct H as (c & r & -> & _).
Qed.

Lemma lstrip_word w : word w = true -> lstrip w = w.
Proof.
  intros H. pose proof (lstrip_word_app w EmptyString H) as L.
  now rewrite PyExprFacts.append_empty in L.
Qed.

Lemma split_once_word w : word w = true -> split_once w = [w].
Proof.
  intros H. rewrite split_once_unfold.
  - now rewrite (PyExprFacts.span_all _ w (word_no_whitespace w H)).
  - now apply lstrip_word.
  - pose proof (word_not_empty w EmptyString H) as N.
    now rewrite PyExprFacts.append_empty in N.
Qed.

(** A word, a space and a word are split in the two. *)
Lemma split_once_two w a :
  word w = true -> word a = true ->
  split_once (strip (w ++ " " ++ a)) = [w; a].
Proof.
  intros Hw Ha. unfold strip.
  rewrite lstrip_word_app by assumption.
  replace (w ++ " " ++ a) with ((w ++ " ") ++ a) by apply append_assoc.
  rewrite rstrip_app_word by assumption. rewrite append_assoc.
  rewrite split_once_unfold;
    [ | now apply lstrip_word_app | now apply word_not_empty ].
  rewrite (PyExprFacts.span_app _ w (" " ++ a) (word_no_whitespace w Hw))
    by reflexivity.
  change (lstrip (" " ++ a)) with (lstrip a).
  rewrite (lstrip_word a Ha).
  apply word_cons in Ha. now destruct Ha as (d & t & -> & _).
Qed.




Lemma word_char_lower c : word_char (lower_char c) = word_char c.
Proof. destruct c as [[] [] [] [] [] [] [] []]; reflexivity. Qed.

Lemma forallb_word_char_lower s :
  forallb word_char (lower s) = forallb word_char s.
Proof.
  induction s as [| c s IH]; [ reflexivity | ].
  cbn [lower forallb]. now rewrite word_char_lower, IH.
Qed.

Lemma word_lower w : word (lower w) = word w.
Proof.
  unfold word. rewrite forallb_word_char_lower. now destruct w.
Qed.

(** A word, and a word with its argument, with blanks around. *)
Lemma split_padded p w q :
  blank p = true -> word w = true -> blank q = true ->
  split_once (strip (p ++ w ++ q)) = [w].
Proof.
  intros Hp Hw Hq. rewrite strip_padded by assumption.
  now apply split_once_word.
Qed.

Lemma split_padded_two p w a q :
  blank p = true -> word w = true -> word a = true -> blank q = true ->
  split_once (strip (p ++ w ++ " " ++ a ++ q)) = [w; a].
Proof.
  intros Hp Hw Ha Hq.
  rewrite <- (split_once_two w a Hw Ha). f_equal.
  unfold strip.
  rewrite lstrip_app_blank, !lstrip_word_app by assumption.
  replace (w ++ " " ++ a ++ q) with ((w ++ " " ++ a) ++ q).
  - now rewrite rstrip_app_blank.
  - now rewrite !append_assoc.
Qed.

Lemma word_app_not_empty w s :
  word w = true -> String.eqb (w ++ s) EmptyString = false.
Proof.
  intros H. apply word_cons in H. now destruct H as (c & r & -> & _).
Qed.

Lemma blank_ascii s : blank s = true -> ascii_text s = true.
Proof.
  apply EngineMore.forallb_impl.
  intros c. destruct c as [[] [] [] [] [] [] [] []]; now cbn.
Qed.

End PyTextFacts.

(* ================================================================== *)
(** ** The command line *)

Module CommandLineFacts.
Import PyStr PyNum PyText PyStrFacts PyTextFacts EngineCalls.
Import CommandLineCalculator.

Lemma lookup_In c table h :
  lookup c table = Some h -> In (c, h) table.
Proof.
  induction table as [| [name h'] rest IH]; simpl; [ discriminate | ].
  destruct (String.eqb c name) eqn:E.
  - apply String.eqb_eq in E. intros H. injection H as <-. left.
    now rewrite E.
  - intros H. right. now apply IH.
Qed.

Section Builtins.
Variable py_eval : string -> outcome num.
Variable py_float : string -> option spec_float.

Lemma lookup_word c h :
  lookup c (commands py_float) = Some h -> word c = true.
Proof.
  intros H. apply lookup_In in H. unfold commands in H.
  repeat (destruct H as [H | H];
          [ injection H as <- _; reflexivity | ]).
  destruct H.
Qed.

Lemma command_word w h :
  lookup (lower w) (commands py_float) = Some h -> word w = true.
Proof. intros H. rewrite <- word_lower. now apply lookup_word in H. Qed.

(** A command alone on its line, and a command with an argument, blanks
    around them: the handler is called without and with the argument. *)
Lemma process_input_command p w q h self :
  blank p = true -> blank q = true ->
  lookup (lower w) (commands py_float) = Some h ->
  process_input py_eval py_float (p ++ w ++ q) self = call h None self.
Proof.
  intros Hp Hq L. unfold process_input.
  rewrite split_padded by eauto using command_word.
  now rewrite L.
Qed.

Lemma process_input_argument p w a q h self :
  blank p = true -> blank q = true -> word a = true ->
  lookup (lower w) (commands py_float) = Some h ->
  process_input py_eval py_float (p ++ w ++ " " ++ a ++ q) self
  = call h (Some a) self.
Proof.
  intros Hp Hq Ha L. unfold process_input.
  rewrite split_padded_two by eauto using command_word.
  now rewrite L.
Qed.



(** *** What an action does to the engine *)























(** *** What leaves the loop *)














End Builtins.

End CommandLineFacts.

(* ================================================================== *)
(** ** Properties of the command line *)

Module CommandLineSpec.
Import PyStr PyNum PyText PyStrFacts PyTextFacts EngineCalls.
Import CommandLineCalculator CommandLineFacts.

(** X7. The command of a line is recognised whatever its case and
    whatever whitespace is around the line; an argument behind it is
    passed on as it is.  So the line is processed as the command in small
    letters is. *)
Theorem commands_ignore_case_and_blanks :
  forall py_eval py_float p w q self,
    blank p = true -> blank q = true ->
    lookup (lower w) (commands py_float) <> None ->
    process_input py_eval py_float (p ++ w ++ q) self
    = process_input py_eval py_float (lower w) self
    /\ forall a,
        word a = true ->
        process_input py_eval py_float (p ++ w ++ " " ++ a ++ q) self
        = process_input py_eval py_float (lower w ++ " " ++ a) self.
Proof.
  intros py_eval py_float p w q self Hp Hq L.
  destruct (lookup (lower w) (commands py_float)) as [h |] eqn:E;
    [ clear L | now elim L ].
  assert (E' : lookup (lower (lower w)) (commands py_float) = Some h)
    by now rewrite EngineMore.lower_idempotent.
  split.
  - rewrite (process_input_command py_eval py_float p w q h self Hp Hq E).
    pose proof (process_input_command py_eval py_float
                  EmptyString (lower w) EmptyString h self
                  eq_refl eq_refl E') as R.
    cbn [append] in R. rewrite EngineMore.append_empty_r in R.
    now rewrite R.
  - intros a Ha.
    rewrite (process_input_argument py_eval py_float p w a q h self
               Hp Hq Ha E).
    pose proof (process_input_argument py_eval py_float
                  EmptyString (lower w) a EmptyString h self
                  eq_refl eq_refl Ha E') as R.
    cbn [append] in R. rewrite EngineMore.append_empty_r in R.
    symmetry. exact R.
Qed.

(** X7 at the line [  MeMoRy ]. *)
Lemma commands_ignore_case_and_blanks_witness :
  process_input PyExpr.eval_closed float_closed "  MeMoRy " (init [])
  = process_input PyExpr.eval_closed float_closed "memory" (init []).
Proof.
  apply (proj1 (commands_ignore_case_and_blanks
                  PyExpr.eval_closed float_closed
                  "  " "MeMoRy" " " (init [])
                  eq_refl eq_refl ltac:(discriminate))).
Defined.

(** X8. The commands whose method takes no argument ([help], [history],
    [clear], [memory], [mc], [exit], [quit]) fail with a [TypeError] when
    something follows them on the line, before anything is done: nothing
    is printed, the history and the memory are kept, and [exit now] does
    not leave the loop, which prints the error and goes on. *)
Theorem argument_to_plain_command_is_type_error :
  forall py_eval py_float w a self,
    In (lower w) ["help"; "history"; "clear"; "memory"; "mc"; "exit"; "quit"] ->
    word a = true ->
    process_input py_eval py_float (w ++ " " ++ a) self
    = (Raised TypeError, self)
    /\ forall e rest out,
        run_turn py_eval py_float
          {| engine := e; stdin := (w ++ " " ++ a) :: rest; stdout := out |}
        = (None,
           {| engine := e; stdin := rest;
              stdout := out ++ [Prompt (nl ++ "> "); PrintError TypeError] |}).
Proof.
  intros py_eval py_float w a self Hw Ha.
  assert (L : exists x, lookup (lower w) (commands py_float)
                        = Some (NoArgument x)).
  { cbn [In] in Hw.
    repeat (destruct Hw as [Hw | Hw];
            [ rewrite <- Hw; eexists; reflexivity | ]).
    destruct Hw. }
  destruct L as [x L].
  assert (P : forall self,
             process_input py_eval py_float (w ++ " " ++ a) self
             = (Raised TypeError, self)).
  { intros s.
    pose proof (process_input_argument py_eval py_float
                  EmptyString w a EmptyString (NoArgument x) s
                  eq_refl eq_refl Ha L) as R.
    cbn [append] in R. rewrite EngineMore.append_empty_r in R.
    exact R. }
  split; [ apply P | ].
  intros e rest out. unfold run_turn, input, seq, write.
  cbn [stdin engine stdout].
  rewrite (word_app_not_empty w (" " ++ a) (command_word py_float w _ L)).
  rewrite P. cbn [snd]. unfold write. cbn [stdin engine stdout].
  now rewrite <- List.app_assoc.
Qed.

(** X8 at the line [exit now]. *)
Lemma argument_to_plain_command_is_type_error_witness :
  process_input PyExpr.eval_closed float_closed "exit now" (init [])
  = (Raised TypeError, init []).
Proof.
  apply (proj1 (argument_to_plain_command_is_type_error
                  PyExpr.eval_closed float_closed "exit" "now" (init [])
                  ltac:(cbn; tauto) eq_refl)).
Defined.

(** X9. A line of whitespace only is not skipped as the empty line is:
    [parts[0]] fails with an [IndexError]; the loop prints the error and
    goes on, the engine as it was. *)
Theorem blank_line_is_index_error :
  forall py_eval py_float user_input,
    blank user_input = true ->
    (forall self,
        process_input py_eval py_float user_input self
        = (Raised IndexError, self))
    /\ forall e rest out,
        run_turn py_eval py_float
          {| engine := e; stdin := user_input :: rest; stdout := out |}
        = (None,
           {| engine := e; stdin := rest;
              stdout :=
                out ++ [Prompt (nl ++ "> ")]
                    ++ (if String.eqb user_input EmptyString then []
                        else [PrintError IndexError]) |}).
Proof.
  intros py_eval py_float user_input H.
  assert (P : forall self,
             process_input py_eval py_float user_input self
             = (Raised IndexError, self)).
  { intros self. unfold process_input. now rewrite (strip_blank _ H). }
  split; [ exact P | ].
  intros e rest out. unfold run_turn, input, seq, write.
  cbn [stdin engine stdout].
  destruct (String.eqb user_input EmptyString); [ reflexivity | ].
  rewrite P. cbn [snd]. unfold write. cbn [stdin engine stdout].
  now rewrite <- List.app_assoc.
Qed.

(** X9 at a line of two spaces. *)
Lemma blank_line_is_index_error_witness :
  process_input PyExpr.eval_closed float_closed "  " (init [])
  = (Raised IndexError, init []).
Proof.
  apply (proj1 (blank_line_is_index_error
                  PyExpr.eval_closed float_closed "  " eq_refl)).
Defined.



(** X11. The memory commands with their value on the line.  A value
    [float] does not take is answered by the message about an invalid
    value, and the engine is as before.  A value it takes as [x] is added
    to, subtracted from or stored in the memory as a [float], the history
    and the last result are kept, and the message shows the value as it
    was typed. *)
Theorem memory_commands_take_a_number :
  forall py_eval py_float v self,
    word v = true ->
    (py_float v = None ->
     forall c,
       In c ["m+"; "m-"; "ms"] ->
       process_input py_eval py_float (c ++ " " ++ v) self
       = print "Invalid value. Please enter a number." self)
    /\ (forall x,
           py_float v = Some x ->
           process_input py_eval py_float ("ms " ++ v) self
           = print ("Stored " ++ v ++ " in memory.")
               (set_engine
                  (CalculatorEngine.set_memory (PyFloat x) (engine self))
                  self))
    /\ (forall x f,
           py_float v = Some x ->
           to_float (CalculatorEngine.memory (engine self)) = Return f ->
           process_input py_eval py_float ("m+ " ++ v) self
           = print ("Added " ++ v ++ " to memory. New memory value: "
                    ++ str (PyFloat (SFadd prec emax f x)))
               (set_engine
                  (CalculatorEngine.set_memory
                     (PyFloat (SFadd prec emax f x)) (engine self))
                  self)
           /\ process_input py_eval py_float ("m- " ++ v) self
              = print ("Subtracted " ++ v
                       ++ " from memory. New memory value: "
                       ++ str (PyFloat (SFsub prec emax f x)))
                  (set_engine
                     (CalculatorEngine.set_memory
                        (PyFloat (SFsub prec emax f x)) (engine self))
                     self)).
Proof.
  intros py_eval py_float v self Hv.
  assert (P : forall c h,
             lookup (lower c) (commands py_float) = Some h ->
             process_input py_eval py_float (c ++ " " ++ v) self
             = call h (Some v) self).
  { intros c h L.
    pose proof (process_input_argument py_eval py_float
                  EmptyString c v EmptyString h self
                  eq_refl eq_refl Hv L) as R.
    cbn [append] in R. rewrite EngineMore.append_empty_r in R.
    exact R. }
  split; [ | split ].
  - intros N c Hc. cbn [In] in Hc.
    destruct Hc as [<- | [<- | [<- | []]]];
      (erewrite P by reflexivity);
      cbn [call]; unfold memory_add, memory_subtract, memory_store;
      cbn [with_value]; unfold memory_command; now rewrite N.
  - intros x E. change ("ms " ++ v) with ("ms" ++ " " ++ v).
    erewrite (P "ms") by reflexivity.
    cbn [call]. unfold memory_store. cbn [with_value].
    unfold memory_command. now rewrite E.
  - intros x f E F. split.
    + change ("m+ " ++ v) with ("m+" ++ " " ++ v).
      erewrite (P "m+") by reflexivity.
      cbn [call]. unfold memory_add. cbn [with_value].
      unfold memory_command. rewrite E.
      now rewrite (CalculatorEngineFacts.add_float_returns _ f x F).
    + change ("m- " ++ v) with ("m-" ++ " " ++ v).
      erewrite (P "m-") by reflexivity.
      cbn [call]. unfold memory_subtract. cbn [with_value].
      unfold memory_command. rewrite E.
      now rewrite (CalculatorEngineFacts.subtract_float_returns _ f x F).
Qed.

(** X11 at the line [m+ 2.5], the memory being 0. *)
Lemma memory_commands_take_a_number_witness :
  process_input PyExpr.eval_closed float_closed "m+ 2.5" (init [])
  = (Done,
     {| engine :=
          {| CalculatorEngine.history := [];
             CalculatorEngine.memory :=
               PyFloat (S754_finite false 5629499534213120 (-51));
             CalculatorEngine.last_result := PyInt 0 |};
        stdin := [];
        stdout := [Print "Added 2.5 to memory. New memory value: 2.5"] |}).
Proof.
  apply (proj1 (proj2 (proj2 (memory_commands_take_a_number
                                PyExpr.eval_closed float_closed
                                "2.5" (init []) eq_refl))
                  (S754_finite false 5629499534213120 (-51))
                  (S754_zero false) eq_refl eq_refl)).
Defined.

(** X18. A memory command alone on its line asks for the value and
    reads the next line as the value, whatever that line is: it is not
    taken as a command or an expression.  With the word [v] on the next
    line the command goes on as the command with [v] on its own line,
    the prompt written before; at the end of the input it fails with
    the [EOFError] of [input], the engine as it was. *)
Theorem memory_command_reads_next_line :
  forall py_eval py_float c v e rest out,
    In c ["m+"; "m-"; "ms"] ->
    word v = true ->
    exists prompt,
      process_input py_eval py_float c
        {| engine := e; stdin := v :: rest; stdout := out |}
      = process_input py_eval py_float (c ++ " " ++ v)
          {| engine := e; stdin := rest;
             stdout := out ++ [Prompt prompt] |}
      /\ process_input py_eval py_float c
           {| engine := e; stdin := []; stdout := out |}
         = (Raised EOFError,
            {| engine := e; stdin := [];
               stdout := out ++ [Prompt prompt] |}).
Proof.
  intros py_eval py_float c v e rest out Hc Hv.
  assert (P : forall h self,
             lookup (lower c) (commands py_float) = Some h ->
             process_input py_eval py_float c self = call h None self
             /\ process_input py_eval py_float (c ++ " " ++ v) self
                = call h (Some v) self).
  { intros h self L. split.
    - pose proof (process_input_command py_eval py_float
                    EmptyString c EmptyString h self
                    eq_refl eq_refl L) as R.
      cbn [append] in R. rewrite EngineMore.append_empty_r in R.
      exact R.
    - pose proof (process_input_argument py_eval py_float
                    EmptyString c v EmptyString h self
                    eq_refl eq_refl Hv L) as R.
      cbn [append] in R. rewrite EngineMore.append_empty_r in R.
      exact R. }
  cbn [In] in Hc. destruct Hc as [<- | [<- | [<- | []]]].
  - exists "Enter value to add to memory: ". split.
    + rewrite (proj1 (P _ _ eq_refl)), (proj2 (P _ _ eq_refl)).
      reflexivity.
    + rewrite (proj1 (P _ _ eq_refl)). reflexivity.
  - exists "Enter value to subtract from memory: ". split.
    + rewrite (proj1 (P _ _ eq_refl)), (proj2 (P _ _ eq_refl)).
      reflexivity.
    + rewrite (proj1 (P _ _ eq_refl)). reflexivity.
  - exists "Enter value to store in memory: ". split.
    + rewrite (proj1 (P _ _ eq_refl)), (proj2 (P _ _ eq_refl)).
      reflexivity.
    + rewrite (proj1 (P _ _ eq_refl)). reflexivity.
Qed.

(** X18 at the line [ms] followed by the line [exit]. *)
Lemma memory_command_reads_next_line_witness :
  exists prompt,
    process_input PyExpr.eval_closed float_closed "ms"
      {| engine := CalculatorEngine.init; stdin := ["exit"];
         stdout := [] |}
    = process_input PyExpr.eval_closed float_closed "ms exit"
        {| engine := CalculatorEngine.init; stdin := [];
           stdout := [Prompt prompt] |}
    /\ process_input PyExpr.eval_closed float_closed "ms"
         {| engine := CalculatorEngine.init; stdin := []; stdout := [] |}
       = (Raised EOFError,
          {| engine := CalculatorEngine.init; stdin := [];
             stdout := [Prompt prompt] |}).
Proof.
  apply (memory_command_reads_next_line
           PyExpr.eval_closed float_closed "ms" "exit"
           CalculatorEngine.init [] []);
    [ cbn; tauto | reflexivity ].
Defined.

(** X12. At the end of the input the loop does not end: [input] raises
    an [EOFError], which the handler of [run] prints, and the next turn
    asks again.  After any number of turns the loop is still running, the
    engine is as it was, and the prompt and the error have been written
    once for each turn. *)
Theorem end_of_input_does_not_end_the_loop :
  forall py_eval py_float n self,
    stdin self = [] ->
    run_turns py_eval py_float n self
    = (None,
       {| engine := engine self;
          stdin := [];
          stdout :=
            stdout self
            ++ List.concat
                 (List.repeat [Prompt (nl ++ "> "); PrintError EOFError]
                              n) |}).
Proof.
  intros py_eval py_float n.
  induction n as [| n IH]; intros self H.
  - cbn. rewrite List.app_nil_r. destruct self. cbn in H. now rewrite H.
  - cbn [run_turns]. unfold run_turn, input, seq, write.
    cbn [stdin engine stdout snd]. rewrite H.
    cbn [snd stdin engine stdout].
    rewrite IH by reflexivity.
    cbn [stdin engine stdout List.repeat List.concat].
    now rewrite <- !List.app_assoc.
Qed.

(** X12 for three turns behind no input at all. *)
Lemma end_of_input_does_not_end_the_loop_witness :
  fst (run_turns PyExpr.eval_closed float_closed 3 (init [])) = None.
Proof.
  rewrite (end_of_input_does_not_end_the_loop
             PyExpr.eval_closed float_closed 3 (init []) eq_refl).
  reflexivity.
Defined.




End CommandLineSpec.




(* ================================================================== *)
(** ** The window *)

Module CalculatorGUIFacts.
Import PyStr PyNum PyText EngineCalls CalculatorGUI.

Section Builtins.
Variable py_eval : string -> outcome num.
Variable py_float : string -> option spec_float.







End Builtins.

End CalculatorGUIFacts.

(* ================================================================== *)
(** ** Properties of the window *)

Module CalculatorGUISpec.
Import PyStr PyNum PyText EngineCalls CalculatorGUI CalculatorGUIFacts.


(** X16. The memory buttons read the number back from the text of the
    result label.  Behind a calculation with the result [v] the button
    [MS] stores [float(str(v))], so an [int] result is stored as a
    [float].  Behind a calculation that failed the label shows the error,
    and [MS], [M+] and [M-] do nothing at all. *)
Theorem memory_buttons_read_the_label :
  forall py_eval py_float self,
    display_var self <> EmptyString ->
    (forall v e x,
        CalculatorEngine.evaluate py_eval (display_var self) (engine self)
        = (Return v, e) ->
        py_float (str v) = Some x ->
        engine (press_all py_eval py_float [Equals; MS] self)
        = CalculatorEngine.set_memory (PyFloat x) e)
    /\ (forall cause b,
           py_eval (CalculatorEngine.prepare (engine self)
                                             (display_var self))
           = Raise cause ->
           In b [MS; MPlus; MMinus] ->
           result_var (press_all py_eval py_float [Equals] self)
           = ErrorLabel (ValueError cause)
           /\ press_all py_eval py_float [Equals; b] self
              = press_all py_eval py_float [Equals] self).
Proof.
  intros py_eval py_float self D. split.
  - intros v e x E F. unfold press_all. cbn [fold_left press snd].
    unfold calculate.
    destruct (display_var self) as [| c s]; [ now elim D | ].
    rewrite E. unfold memory_operation.
    cbn [String.eqb Ascii.eqb Bool.eqb andb].
    unfold memory_from_label.
    cbn [update_history set_result set_engine result_var label_value
         engine drop append].
    now rewrite F.
  - intros cause b E Hb. unfold press_all. cbn [fold_left press snd].
    unfold calculate.
    destruct (display_var self) as [| c s]; [ now elim D | ].
    rewrite (CalculatorEngineFacts.evaluate_raise py_eval _ _ _ E).
    split; [ reflexivity | ].
    cbn [In] in Hb. destruct Hb as [<- | [<- | [<- | []]]]; reflexivity.
Qed.

(** X16 at [2^3] in the display of the window at its start. *)
Lemma memory_buttons_read_the_label_witness :
  engine (press_all PyExpr.eval_closed float_closed [Equals; MS]
                    (append_to_display "2^3" init))
  = CalculatorEngine.set_memory
      (PyFloat (S754_finite false 4503599627370496 (-49)))
      {| CalculatorEngine.history := [("2**3", PyInt 8)];
         CalculatorEngine.memory := PyInt 0;
         CalculatorEngine.last_result := PyInt 8 |}.
Proof.
  apply (proj1 (memory_buttons_read_the_label
                  PyExpr.eval_closed float_closed
                  (append_to_display "2^3" init) ltac:(discriminate))
           (PyInt 8)); reflexivity.
Defined.

End CalculatorGUISpec.


(* ================================================================== *)
(** ** The password generator *)

Module PasswordGeneratorSpec.
Import PyStr PasswordGenerator.

Lemma get_mem s : forall i c, String.get i s = Some c -> mem c s = true.
Proof.
  induction s as [| d s IH]; intros i c; [ discriminate | ].
  destruct i as [| i]; cbn [String.get mem].
  - intros H. injection H as ->. now rewrite Ascii.eqb_refl.
  - intros H. rewrite (IH i c H). apply orb_true_r.
Qed.

Lemma get_below s : forall i,
  (i < String.length s)%nat -> exists c, String.get i s = Some c.
Proof.
  induction s as [| d s IH]; intros i H; cbn [String.length] in H;
    [ lia | ].
  destruct i as [| i]; cbn [String.get]; [ now exists d | ].
  apply IH. lia.
Qed.

Section Random.
Variable randbelow : nat -> nat -> nat.
Hypothesis randbelow_below :
  forall k n, (0 < n)%nat -> (randbelow k n < n)%nat.

Lemma choice_mem k seq :
  seq <> EmptyString -> mem (choice randbelow k seq) seq = true.
Proof.
  intros N. unfold choice.
  assert (L : (0 < String.length seq)%nat)
    by (destruct seq; [ now elim N | cbn; lia ]).
  destruct (get_below seq _ (randbelow_below k _ L)) as [c E].
  rewrite E. now apply get_mem in E.
Qed.

Lemma draws_length count : forall k,
  String.length (draws randbelow k count) = count.
Proof.
  induction count as [| count IH]; intros k; [ reflexivity | ].
  cbn [draws String.length]. now rewrite IH.
Qed.

Lemma draws_alphabet count : forall k,
  forallb (fun c => mem c all_characters) (draws randbelow k count) = true.
Proof.
  induction count as [| count IH]; intros k; [ reflexivity | ].
  cbn [draws forallb]. rewrite IH, choice_mem; [ reflexivity | ].
  discriminate.
Qed.

End Random.

(** X17. With a [random.choice] that draws an index below the length of
    its sequence, [generate_password] returns for a length of 1 or more
    a text of that many characters, each a letter, a digit or a
    punctuation character of ASCII; for a smaller length it returns the
    message about the length, as if it were a password, and the message
    is returned in no other case. *)
Theorem password_has_length_and_alphabet :
  forall randbelow length,
    (forall k n, (0 < n)%nat -> (randbelow k n < n)%nat) ->
    (generate_password randbelow length = too_short <-> (length < 1)%Z)
    /\ ((1 <= length)%Z ->
        String.length (generate_password randbelow length)
        = Z.to_nat length
        /\ forallb (fun c => mem c all_characters)
                   (generate_password randbelow length) = true).
Proof.
  intros randbelow length H. unfold generate_password.
  destruct (Z.ltb_spec length 1) as [L | L].
  - split; [ now split | lia ].
  - pose proof (draws_alphabet randbelow H (Z.to_nat length) 0%nat) as A.
    split; [ split; [ | lia ] | ].
    + intros E. rewrite E in A. discriminate A.
    + intros _. split; [ apply draws_length | exact A ].
Qed.

(** X17 for the length 12 and a choice that steps through the
    characters. *)
Lemma password_has_length_and_alphabet_witness :
  String.length
    (generate_password (fun k n => Nat.modulo (7 * k + 3) n) 12)
  = 12%nat.
Proof.
  apply (proj2 (password_has_length_and_alphabet
                  (fun k n => Nat.modulo (7 * k + 3) n) 12
                  (fun k n H => Nat.mod_upper_bound _ _
                                  (Nat.neq_sym _ _ (Nat.lt_neq _ _ H))))).
  lia.
Defined.

End PasswordGeneratorSpec.
